(** * pdf2img-cdn: first-page PDF to PNG conversion

    A shallow embedding of [app/lib/pdf2img-cdn.ts].  The module has three
    layers, kept in the same order here:

    - the engine loader ([loadPdfJsFromCDN], [loadPdfJsLocal], [loadPdfJs])
      with its module-level memo ([isLoading], [loadPromise]) and the
      [window.pdfjsLib] global;
    - the conversion function [convertPdfToImage], one [try]/[catch] around
      validation, engine load, parsing, rendering and encoding;
    - the result packaging inside the [canvas.toBlob] callback.

    Everything the browser and the rendering engine decide (whether an import
    resolves, what a document contains, which blob the encoder delivers) is
    read from an environment record [Env]; the code's own control flow, state
    updates and strings are modelled as written. *)

From Stdlib Require Import NArith Ascii String QArith Qround Lia.
From stdpp Require Import base option list strings.

Local Open Scope N_scope.

(** ** Values of the host language *)

(** [null] and [undefined]. *)
Inductive nullish : Type := JsNull | JsUndefined.

(** A thrown value.  The [catch] of [convertPdfToImage] tells [Error]
    instances from other values ([err instanceof Error ? err.message :
    String(err)]), and [loadPdfJs] reads [.message] off whatever was thrown,
    so three kinds are kept: [ErrorObj m] is an [Error] (or a subclass such
    as [TypeError]) with [message] [m]; [Nullish v] is a thrown [null] or
    [undefined]; [NonError t m] is any other thrown value, with [t] its
    [String(...)] rendering and [m] the rendering of its [message] property
    when it has one (a primitive has none). *)
Inductive exn : Type :=
  | ErrorObj (message : string)
  | NonError (text : string) (message : option string)
  | Nullish (v : nullish).

(** [String(null)], [String(undefined)]. *)
Definition nullish_text (v : nullish) : string :=
  match v with
  | JsNull => "null"
  | JsUndefined => "undefined"
  end.

(** [err instanceof Error ? err.message : String(err)] (line 220). *)
Definition errorMessage (err : exn) : string :=
  match err with
  | ErrorObj m => m
  | NonError t _ => t
  | Nullish v => nullish_text v
  end.

(** [`${e.message}`] inside a template literal (line 106): the text it
    renders, [undefined] for a missing [message] property; or, on [null] and
    [undefined], the value whose property read throws. *)
Definition messageOf (e : exn) : string + nullish :=
  match e with
  | ErrorObj m => inl m
  | NonError _ (Some m) => inl m
  | NonError _ None => inl "undefined"
  | Nullish v => inr v
  end.

(** How a promise, or an awaited call, ends. [Pending] is a promise that
    never settles. *)
Inductive outcome (A : Type) : Type :=
  | Fulfilled (a : A)
  | Rejected (e : exn)
  | Pending.
Arguments Fulfilled {A} a.
Arguments Rejected {A} e.
Arguments Pending {A}.

Definition is_pending {A} (o : outcome A) : bool :=
  match o with
  | Pending => true
  | _ => false
  end.

(** [Blob] and [File] as far as the module reads them.  [size] is a byte
    count, a non-negative integer; a name is the sequence of its code units,
    and the pattern of line 195 only ever matches ASCII ones. *)
Record Blob : Type := mkBlob { blob_size : N; blob_type : string }.

Record File : Type := mkFile { name : string; type : string; size : N }.

(** [interface PdfConversionResult] (lines 1-5); [error?] is optional. *)
Record PdfConversionResult : Type := mkResult {
  imageUrl : string;
  file : option File;
  error : option string
}.

(** ** The output name: [file.name.replace(/\.pdf$/i, "")] (line 195) *)

Module Name.

(** One pattern character under the [i] flag.  Without the [u] flag a
    character outside ASCII never canonicalises to an ASCII letter, so a
    letter matches exactly its two cases. *)
Definition ci_match (pat c : ascii) : bool :=
  match pat with
  | "p"%char => bool_decide (c = "p"%char) || bool_decide (c = "P"%char)
  | "d"%char => bool_decide (c = "d"%char) || bool_decide (c = "D"%char)
  | "f"%char => bool_decide (c = "f"%char) || bool_decide (c = "F"%char)
  | _ => bool_decide (c = pat)
  end.

(** The pattern [\.pdf$] tried at the start of [s]: four characters, then the
    end of the input ([$] without the [m] flag). *)
Definition match_here (s : string) : bool :=
  match s with
  | String c0 (String c1 (String c2 (String c3 EmptyString))) =>
      ci_match "." c0 && ci_match "p" c1 && ci_match "d" c2 && ci_match "f" c3
  | _ => false
  end.

(** [String.prototype.replace] with a non-global pattern and the replacement
    [""]: the leftmost position where the pattern matches is searched from the
    start of the string, and the matched text is dropped. *)
Fixpoint replace_pdf_suffix (s : string) : string :=
  if match_here s then ""
  else match s with
       | EmptyString => ""
       | String c rest => String c (replace_pdf_suffix rest)
       end.

(** [`${originalName}.png`] (line 196). *)
Definition png_name (file_name : string) : string :=
  replace_pdf_suffix file_name +:+ ".png".

(** A four-character extension that is [.pdf] up to the case of its letters. *)
Definition is_pdf_ext (ext : string) : Prop := match_here ext = true.

(** [file_name] ends in such an extension. *)
Definition has_pdf_suffix (file_name : string) : Prop :=
  exists base ext, file_name = base +:+ ext /\ is_pdf_ext ext.

End Name.

(** ** The rendering engine and the browser *)

(** The engine module ([pdfjsLib]).  [GlobalWorkerOptions] is [Some src] when
    the property is an object whose [workerSrc] is [src], and [None] when the
    module does not carry it (the local loader tests for that, line 84). *)
Record Lib : Type := mkLib {
  lib_source : string;
  GlobalWorkerOptions : option string
}.

Definition setWorkerSrc (src : string) (lib : Lib) : Lib :=
  mkLib (lib_source lib) (Some src).

Record ArrayBuffer : Type := mkArrayBuffer { byteLength : N }.
Record PdfDoc : Type := mkPdfDoc { doc_id : nat; numPages : N }.
Record Page : Type := mkPage { page_doc : nat; page_number : N }.
(** Viewport dimensions are numbers, in general not whole ones; each is the
    rational its floating-point value denotes (the module does no arithmetic
    on them). *)
Record Viewport : Type := mkViewport { vp_width : Q; vp_height : Q }.
Record Canvas : Type := mkCanvas { canvas_width : N; canvas_height : N }.

(** What the browser does with an injected script element. [ScriptLoads ex]:
    the script ran and the [load] event fires; [ex] is the value the script
    stored in [window.pdfjsLib], if it stored one. [ScriptFails]: the [error]
    event fires. *)
Inductive ScriptOutcome : Type :=
  | ScriptLoads (exposes : option Lib)
  | ScriptFails.

(** Calls that leave the module, in the order they are made. *)
Inductive call : Type :=
  | CImport (specifier : string)
  | CArrayBuffer
  | CGetDocument
  | CGetPage (n : N)
  | CGetViewport (scale : Q)
  | CCreateCanvas
  | CGetContext
  | CFillRect (w h : N)
  | CRender
  | CToBlob (mime : string) (quality : Q)
  | CNewFile (file_name : string)
  | CCreateObjectURL.

(** The answers of the browser and of the engine. *)
Record Env : Type := mkEnv {
  (** message of the [TypeError] for reading a property of [null] *)
  nullReadMessage : string;
  (** message of the [TypeError] for writing a property of [undefined] *)
  undefinedWriteMessage : string;
  (** message of the [TypeError] for reading [.message] of [null] or of
      [undefined] *)
  messageReadError : nullish -> string;
  (** [import("pdfjs-dist")] *)
  importStandard : outcome Lib;
  (** [import("pdfjs-dist/build/pdf.mjs")] *)
  importBuildPath : outcome Lib;
  (** fate of the n-th script element appended to [document.head] *)
  scriptFetch : nat -> ScriptOutcome;
  (** [import(<CDN url>)] made by the [onload] handler of the n-th script *)
  cdnImport : nat -> outcome Lib;
  (** [file.arrayBuffer()] *)
  arrayBuffer : File -> outcome ArrayBuffer;
  (** [lib.getDocument({...}).promise] *)
  getDocument : Lib -> ArrayBuffer -> outcome PdfDoc;
  (** [pdf.getPage(n)] *)
  getPage : PdfDoc -> N -> outcome Page;
  (** [page.getViewport({ scale })] *)
  getViewport : Page -> Q -> outcome Viewport;
  (** whether [canvas.getContext("2d", ...)] yields a context *)
  context2d : bool;
  (** what [canvas.width] and [canvas.height] read after being assigned a
      number: the element keeps whole pixels *)
  canvasWidth : Q -> N;
  canvasHeight : Q -> N;
  (** [page.render({...}).promise] *)
  render : Page -> Viewport -> outcome unit;
  (** [canvas.toBlob(callback, ...)]: [Fulfilled b] when the callback is
      called with the blob [b] ([None] for [null]), [Rejected e] when
      [toBlob] itself throws [e], [Pending] when the callback is never
      called *)
  toBlob : Page -> Canvas -> outcome (option Blob);
  (** the part of a blob URL after its scheme *)
  objectUrlPath : Blob -> string
}.

(** [URL.createObjectURL(blob)]: a blob URL, scheme [blob:] followed by the
    origin and an identifier. *)
Definition createObjectURL (env : Env) (blob : Blob) : string :=
  "blob:" +:+ objectUrlPath env blob.

(** ** Module state and the world *)

(** Where a script element injected by [loadPdfJsFromCDN] stands. *)
Inductive phase : Type :=
  | Fetching     (* appended, neither [load] nor [error] fired yet *)
  | Importing    (* [onload] ran and started [import(<CDN url>)] *)
  | Finished.    (* its handlers have run *)

(** One execution of the [new Promise] executor of lines 26-63: the script
    element it appended, and the promise it created. *)
Record Load : Type := mkLoad {
  script_src : string;
  script_type : string;
  load_phase : phase;
  promise : outcome Lib
}.

(** [window.pdfjsLib], the module variables [isLoading] and [loadPromise]
    (lines 14-15; a promise is named by the index of its [Load]), the script
    elements appended to [document.head] with their promises, and the calls
    made so far. *)
Record World : Type := mkWorld {
  pdfjsLib : option Lib;
  isLoading : bool;
  loadPromise : option nat;
  loads : list Load;
  calls : list call
}.

Definition initial : World := mkWorld None false None [] [].

Definition set_pdfjsLib (v : option Lib) (w : World) : World :=
  mkWorld v (isLoading w) (loadPromise w) (loads w) (calls w).
Definition set_isLoading (v : bool) (w : World) : World :=
  mkWorld (pdfjsLib w) v (loadPromise w) (loads w) (calls w).
Definition set_loadPromise (v : option nat) (w : World) : World :=
  mkWorld (pdfjsLib w) (isLoading w) v (loads w) (calls w).
Definition set_loads (v : list Load) (w : World) : World :=
  mkWorld (pdfjsLib w) (isLoading w) (loadPromise w) v (calls w).
Definition set_calls (v : list call) (w : World) : World :=
  mkWorld (pdfjsLib w) (isLoading w) (loadPromise w) (loads w) v.

(** [resolve(v)] / [reject(e)]: settling a promise that is already settled
    does nothing. *)
Definition settle_load (o : outcome Lib) (l : Load) : Load :=
  match promise l with
  | Pending => mkLoad (script_src l) (script_type l) (load_phase l) o
  | _ => l
  end.

Definition phase_load (ph : phase) (l : Load) : Load :=
  mkLoad (script_src l) (script_type l) ph (promise l).

Definition settle (p : nat) (o : outcome Lib) (w : World) : World :=
  set_loads (alter (settle_load o) p (loads w)) w.

Definition set_phase (p : nat) (ph : phase) (w : World) : World :=
  set_loads (alter (phase_load ph) p (loads w)) w.

Definition phase_of (p : nat) (w : World) : option phase :=
  load_phase <$> loads w !! p.

Definition promise_of (p : nat) (w : World) : outcome Lib :=
  match loads w !! p with
  | Some l => promise l
  | None => Pending
  end.

(** ** Asynchronous computations *)

(** An [async] body run to its end against the world. *)
Definition M (A : Type) : Type := World -> outcome A * World.

Definition ret {A} (a : A) : M A := fun w => (Fulfilled a, w).

Definition bind {A B} (m : M A) (k : A -> M B) : M B :=
  fun w =>
    match m w with
    | (Fulfilled a, w') => k a w'
    | (Rejected e, w') => (Rejected e, w')
    | (Pending, w') => (Pending, w')
    end.

(** [throw e] *)
Definition throw {A} (e : exn) : M A := fun w => (Rejected e, w).

(** [try { m } catch (e) { h e }] *)
Definition tryCatch {A} (m : M A) (h : exn -> M A) : M A :=
  fun w =>
    match m w with
    | (Rejected e, w') => h e w'
    | r => r
    end.

(** [await] of a call whose answer the environment gives. *)
Definition await {A} (c : call) (o : outcome A) : M A :=
  fun w => (o, set_calls (calls w ++ [c]) w).

(** A call that returns nothing of interest. *)
Definition perform (c : call) : M unit :=
  fun w => (Fulfilled tt, set_calls (calls w ++ [c]) w).

Notation "x <- m ;; k" := (bind m (fun x => k))
  (at level 90, m at level 80, right associativity).
Notation "m ;;; k" := (bind m (fun _ => k))
  (at level 90, right associativity).

(** ** The engine loader *)

Definition cdn_script_url : string :=
  "https://cdnjs.cloudflare.com/ajax/libs/pdf.js/4.0.379/pdf.min.mjs".
Definition cdn_worker_url : string :=
  "https://cdnjs.cloudflare.com/ajax/libs/pdf.js/4.0.379/pdf.worker.min.mjs".
Definition local_worker_url : string := "/pdf.worker.min.mjs".

(** What a caller of [loadPdfJsFromCDN] is handed: the cached engine (line
    19) or a promise to wait on (lines 22 and 65). *)
Inductive loadRef : Type :=
  | Cached (lib : Lib)
  | InFlight (p : nat).

Section Loader.
Variable env : Env.

(** [loadPdfJsFromCDN] up to its [return] (lines 17-66; the body has no
    [await], so it runs in one piece).  The executor of [new Promise] appends
    one script element and leaves its promise pending. *)
Definition loadPdfJsFromCDN_enter (w : World) : loadRef * World :=
  match pdfjsLib w with
  | Some lib => (Cached lib, w)
  | None =>
      match loadPromise w with
      | Some p => (InFlight p, w)
      | None =>
          let p := length (loads w) in
          let w1 := set_isLoading true w in
          let w2 :=
            set_loads (loads w1 ++ [mkLoad cdn_script_url "module" Fetching Pending]) w1 in
          (InFlight p, set_loadPromise (Some p) w2)
      end
  end.

(** [script.onload] of the p-th script (lines 32-53).  With the global in
    place the worker source is set on it and the promise resolved; a global
    without [GlobalWorkerOptions] makes the assignment of line 38 throw inside
    the handler, which settles nothing.  Without the global the handler
    calls [import(<CDN url>)] (line 44) and leaves the promise to the
    import's settlement. *)
Definition script_onload (p : nat) (w : World) : World :=
  match pdfjsLib w with
  | Some lib =>
      match GlobalWorkerOptions lib with
      | Some _ =>
          let lib' := setWorkerSrc cdn_worker_url lib in
          settle p (Fulfilled lib')
            (set_isLoading false (set_pdfjsLib (Some lib') (set_phase p Finished w)))
      | None => set_phase p Finished w
      end
  | None => set_calls (calls w ++ [CImport cdn_script_url]) (set_phase p Importing w)
  end.

(** The [.then] callback of that import (lines 45-50); when it throws, the
    [.catch(reject)] of line 51 rejects the promise with what it threw. *)
Definition import_then (p : nat) (lib : Lib) (w : World) : World :=
  match GlobalWorkerOptions lib with
  | Some _ =>
      let lib' := setWorkerSrc cdn_worker_url lib in
      settle p (Fulfilled lib')
        (set_isLoading false (set_pdfjsLib (Some lib') (set_phase p Finished w)))
  | None =>
      settle p (Rejected (ErrorObj (undefinedWriteMessage env)))
        (set_phase p Finished w)
  end.

(** [.catch(reject)] for a failed import (line 51): the memo is kept. *)
Definition import_catch (p : nat) (e : exn) (w : World) : World :=
  settle p (Rejected e) (set_phase p Finished w).

(** [script.onerror] of the p-th script (lines 55-60): the memo is cleared. *)
Definition script_onerror (p : nat) (w : World) : World :=
  settle p (Rejected (ErrorObj "Failed to load PDF.js from CDN"))
    (set_loadPromise None (set_isLoading false (set_phase p Finished w))).

(** The script stores its global, when it does, before [load] fires. *)
Definition expose (ex : option Lib) (w : World) : World :=
  match ex with
  | Some lib => set_pdfjsLib (Some lib) w
  | None => w
  end.

(** *** One caller waiting for a load *)

(** The browser events still due for promise [p], as the environment decides
    them. *)
Definition drive_fetch (p : nat) (w : World) : World :=
  match phase_of p w with
  | Some Fetching =>
      match scriptFetch env p with
      | ScriptLoads ex => script_onload p (expose ex w)
      | ScriptFails => script_onerror p w
      end
  | _ => w
  end.

Definition drive_import (p : nat) (w : World) : World :=
  match phase_of p w with
  | Some Importing =>
      match cdnImport env p with
      | Fulfilled lib => import_then p lib w
      | Rejected e => import_catch p e w
      | Pending => w
      end
  | _ => w
  end.

Definition drive (p : nat) (w : World) : World :=
  drive_import p (drive_fetch p w).

(** [await loadPdfJsFromCDN()] *)
Definition loadPdfJsFromCDN : M Lib :=
  fun w =>
    match loadPdfJsFromCDN_enter w with
    | (Cached lib, w1) => (Fulfilled lib, w1)
    | (InFlight p, w1) => let w2 := drive p w1 in (promise_of p w2, w2)
    end.

(** [loadPdfJsLocal] (lines 68-94): the package import, then the build path;
    the outer [catch] rethrows. *)
Definition loadPdfJsLocal : M Lib :=
  tryCatch
    (lib <- tryCatch
              (await (CImport "pdfjs-dist") (importStandard env))
              (fun _ => await (CImport "pdfjs-dist/build/pdf.mjs") (importBuildPath env)) ;;
     match GlobalWorkerOptions lib with
     | Some _ => ret (setWorkerSrc local_worker_url lib)
     | None => ret lib
     end)
    (fun error => throw error).

(** The [throw new Error(`...`)] of line 106.  The template reads
    [localError.message], then [cdnError.message]; a read off [null] or
    [undefined] throws a [TypeError] in place of the [Error] being built. *)
Definition combinedFailure (localError cdnError : exn) : exn :=
  match messageOf localError with
  | inr v => ErrorObj (messageReadError env v)
  | inl local_message =>
      match messageOf cdnError with
      | inr v => ErrorObj (messageReadError env v)
      | inl cdn_message =>
          ErrorObj ("PDF.js loading failed: Local: " +:+ local_message
                    +:+ ", CDN: " +:+ cdn_message)
      end
  end.

(** [loadPdfJs] (lines 96-109). *)
Definition loadPdfJs : M Lib :=
  tryCatch loadPdfJsLocal
    (fun localError =>
       tryCatch loadPdfJsFromCDN
         (fun cdnError => throw (combinedFailure localError cdnError))).

(** *** Many callers: the loader as a transition system *)

(** What can happen to the loader between two turns of the event loop: a
    caller enters [loadPdfJsFromCDN], or the browser delivers an event to the
    handlers of a script element. *)
Inductive event : Type :=
  | EvCall
  | EvScriptLoad (p : nat) (exposes : option Lib)
  | EvScriptError (p : nat)
  | EvImportResolved (p : nat) (lib : Lib)
  | EvImportRejected (p : nat) (e : exn).

(** An event is delivered only to a script that waits for it: [load] and
    [error] once, to a script still fetching; the import's settlement to a
    script whose handler started the import. *)
Definition fire (ev : event) (w : World) : option World :=
  match ev with
  | EvCall => Some (snd (loadPdfJsFromCDN_enter w))
  | EvScriptLoad p ex =>
      match phase_of p w with
      | Some Fetching => Some (script_onload p (expose ex w))
      | _ => None
      end
  | EvScriptError p =>
      match phase_of p w with
      | Some Fetching => Some (script_onerror p w)
      | _ => None
      end
  | EvImportResolved p lib =>
      match phase_of p w with
      | Some Importing => Some (import_then p lib w)
      | _ => None
      end
  | EvImportRejected p e =>
      match phase_of p w with
      | Some Importing => Some (import_catch p e w)
      | _ => None
      end
  end.

Fixpoint run (evs : list event) (w : World) : option World :=
  match evs with
  | [] => Some w
  | ev :: evs' =>
      match fire ev w with
      | Some w' => run evs' w'
      | None => None
      end
  end.

(** The loader states that can arise from a fresh page. *)
Definition reachable (w : World) : Prop :=
  exists evs, run evs initial = Some w.

(** The promises handed to the callers of a run, in order. *)
Fixpoint handed (evs : list event) (w : World) : list loadRef :=
  match evs with
  | [] => []
  | ev :: evs' =>
      match fire ev w with
      | Some w' =>
          match ev with
          | EvCall => fst (loadPdfJsFromCDN_enter w) :: handed evs' w'
          | _ => handed evs' w'
          end
      | None => []
      end
  end.

(** Loads whose promise has not settled. *)
Definition in_flight (w : World) : list nat :=
  filter (fun p => is_pending (promise_of p w) = true) (seq 0 (length (loads w))).

(** The [src] of every script element in [document.head], oldest first. *)
Definition injected (w : World) : list string := script_src <$> loads w.

End Loader.

(** ** The conversion function *)

Definition pdf_mime : string := "application/pdf".

(** [50 * 1024 * 1024], the bound of line 130. *)
Definition max_size : N := 50 * 1024 * 1024.

(** The result of every failure path: line 207 and line 221. *)
Definition failure (msg : string) : PdfConversionResult :=
  mkResult "" None (Some msg).

Section Conversion.
Variable env : Env.

(** Lines 115-132.  The [console.log] of line 115 evaluates [file.name] and
    [file.size] before any check is made. *)
Definition validateFile (file : option File) : M File :=
  (match file with
   | None => throw (ErrorObj (nullReadMessage env))
   | Some _ => ret tt
   end) ;;;
  match file with
  | None => throw (ErrorObj "No file provided")
  | Some f =>
      if negb (String.eqb (type f) pdf_mime) then
        throw (ErrorObj ("Invalid file type: " +:+ type f +:+ ". Expected: application/pdf"))
      else if size f =? 0 then
        throw (ErrorObj "File is empty")
      else if max_size <? size f then
        throw (ErrorObj "File is too large (max 50MB)")
      else ret f
  end.

(** Lines 134-186: engine, bytes, document, first page, canvas, render. *)
Definition renderFirstPage (f : File) : M (Page * Canvas) :=
  lib <- loadPdfJs env ;;
  buf <- await CArrayBuffer (arrayBuffer env f) ;;
  pdf <- await CGetDocument (getDocument env lib buf) ;;
  if numPages pdf =? 0 then throw (ErrorObj "PDF has no pages")
  else
    page <- await (CGetPage 1) (getPage env pdf 1) ;;
    viewport <- await (CGetViewport (2 # 1)) (getViewport env page (2 # 1)) ;;
    perform CCreateCanvas ;;;
    perform CGetContext ;;;
    if negb (context2d env) then
      throw (ErrorObj "Failed to get 2D context from canvas")
    else
      let canvas := mkCanvas (canvasWidth env (vp_width viewport))
                             (canvasHeight env (vp_height viewport)) in
      perform (CFillRect (canvas_width canvas) (canvas_height canvas)) ;;;
      await CRender (render env page viewport) ;;;
      ret (page, canvas).

(** Lines 188-217: the promise around [canvas.toBlob] and its callback.  The
    executor only ever calls [resolve]: when [toBlob] throws, the promise is
    rejected with what it threw, and when the callback is never called the
    promise stays pending. *)
Definition encode (f : File) (page : Page) (canvas : Canvas) : M PdfConversionResult :=
  blob <- await (CToBlob "image/png" (95 # 100)) (toBlob env page canvas) ;;
  match blob with
  | Some blob =>
      if 0 <? blob_size blob then
        let originalName := Name.replace_pdf_suffix (name f) in
        let imageFile := mkFile (originalName +:+ ".png") "image/png" (blob_size blob) in
        perform (CNewFile (name imageFile)) ;;;
        perform CCreateObjectURL ;;;
        ret (mkResult (createObjectURL env blob) (Some imageFile) None)
      else ret (failure "Failed to create image blob or blob is empty")
  | None => ret (failure "Failed to create image blob or blob is empty")
  end.

(** Lines 115-186, the part of the [try] block that can throw. *)
Definition conversionSteps (file : option File) : M (File * (Page * Canvas)) :=
  f <- validateFile file ;;
  pc <- renderFirstPage f ;;
  ret (f, pc).

(** [convertPdfToImage] (lines 111-227).  The [try] covers everything up to
    the construction of the encode promise; that promise is returned without
    [await], so it settles after the [try] block has been left and its
    rejection is not caught. *)
Definition convertPdfToImage (file : option File) : M PdfConversionResult :=
  r <- tryCatch
         (x <- conversionSteps file ;; ret (inr x))
         (fun err => ret (inl (failure (errorMessage err)))) ;;
  match r with
  | inl res => ret res
  | inr (f, (page, canvas)) => encode f page canvas
  end.

End Conversion.

(** ** Sample environments *)

Module Sample.

Definition engine : Lib := mkLib "pdfjs-dist" (Some "").
Definition cdn_engine : Lib := mkLib cdn_script_url (Some "").
(** US Letter and A4 at scale 2. *)
Definition letter : Viewport := mkViewport (1224 # 1) (1584 # 1).
Definition a4 : Viewport := mkViewport (119056 # 100) (168378 # 100).
Definition png : Blob := mkBlob 48213 "image/png".
Definition resume : File := mkFile "resume.pdf" pdf_mime 181004.

(** The canvas keeps the whole part of a size. *)
Definition whole_pixels (q : Q) : N := Z.to_N (Qfloor q).

(** A browser where the bundled engine loads and a one-page document renders
    and encodes.  The [TypeError] messages are those of V8. *)
Definition healthy : Env := {|
  nullReadMessage := "Cannot read properties of null (reading 'name')";
  undefinedWriteMessage := "Cannot set properties of undefined (setting 'workerSrc')";
  messageReadError := fun v =>
    match v with
    | JsNull => "Cannot read properties of null (reading 'message')"
    | JsUndefined => "Cannot read properties of undefined (reading 'message')"
    end;
  importStandard := Fulfilled engine;
  importBuildPath := Fulfilled engine;
  scriptFetch := fun _ => ScriptLoads (Some cdn_engine);
  cdnImport := fun _ => Fulfilled cdn_engine;
  arrayBuffer := fun f => Fulfilled (mkArrayBuffer (size f));
  getDocument := fun _ _ => Fulfilled (mkPdfDoc 0 1);
  getPage := fun pdf n => Fulfilled (mkPage (doc_id pdf) n);
  getViewport := fun _ _ => Fulfilled letter;
  context2d := true;
  canvasWidth := whole_pixels;
  canvasHeight := whole_pixels;
  render := fun _ _ => Fulfilled tt;
  toBlob := fun _ _ => Fulfilled (Some png);
  objectUrlPath := fun _ => "https://app.example/0b5c7f0e-7d9e-4c62-9d53-3a1f4f6f2a10"
|}.

Definition with_imports (local1 local2 : outcome Lib) (fetch : ScriptOutcome)
    (remote : outcome Lib) (e : Env) : Env :=
  mkEnv (nullReadMessage e) (undefinedWriteMessage e) (messageReadError e) local1 local2
    (fun _ => fetch) (fun _ => remote)
    (arrayBuffer e) (getDocument e) (getPage e) (getViewport e)
    (context2d e) (canvasWidth e) (canvasHeight e) (render e) (toBlob e)
    (objectUrlPath e).

Definition with_document (doc : outcome PdfDoc) (e : Env) : Env :=
  mkEnv (nullReadMessage e) (undefinedWriteMessage e) (messageReadError e)
    (importStandard e) (importBuildPath e) (scriptFetch e) (cdnImport e)
    (arrayBuffer e) (fun _ _ => doc) (getPage e) (getViewport e)
    (context2d e) (canvasWidth e) (canvasHeight e) (render e) (toBlob e)
    (objectUrlPath e).

Definition with_viewport (vp : Viewport) (e : Env) : Env :=
  mkEnv (nullReadMessage e) (undefinedWriteMessage e) (messageReadError e)
    (importStandard e) (importBuildPath e) (scriptFetch e) (cdnImport e)
    (arrayBuffer e) (getDocument e) (getPage e) (fun _ _ => Fulfilled vp)
    (context2d e) (canvasWidth e) (canvasHeight e) (render e) (toBlob e)
    (objectUrlPath e).

Definition with_encoder (answer : outcome (option Blob)) (e : Env) : Env :=
  mkEnv (nullReadMessage e) (undefinedWriteMessage e) (messageReadError e)
    (importStandard e) (importBuildPath e) (scriptFetch e) (cdnImport e)
    (arrayBuffer e) (getDocument e) (getPage e) (getViewport e)
    (context2d e) (canvasWidth e) (canvasHeight e) (render e) (fun _ _ => answer)
    (objectUrlPath e).

Definition with_blob (b : option Blob) (e : Env) : Env :=
  with_encoder (Fulfilled b) e.

Definition with_context (available : bool) (e : Env) : Env :=
  mkEnv (nullReadMessage e) (undefinedWriteMessage e) (messageReadError e)
    (importStandard e) (importBuildPath e) (scriptFetch e) (cdnImport e)
    (arrayBuffer e) (getDocument e) (getPage e) (getViewport e)
    available (canvasWidth e) (canvasHeight e) (render e) (toBlob e)
    (objectUrlPath e).

(** No bundled engine and no network. *)
Definition offline : Env :=
  with_imports (Rejected (ErrorObj "Cannot find module 'pdfjs-dist'"))
    (Rejected (ErrorObj "Cannot find module 'pdfjs-dist/build/pdf.mjs'"))
    ScriptFails (Rejected (ErrorObj "Failed to fetch dynamically imported module"))
    healthy.

End Sample.

(** ** Vocabulary of the statements *)

(** The two shapes of a result: an image ([file] non-null and [imageUrl]
    non-empty), an error ([error] present). *)
Definition has_image (r : PdfConversionResult) : Prop :=
  file r <> None /\ imageUrl r <> "".

Definition has_error (r : PdfConversionResult) : Prop :=
  error r <> None.

(** Calls that touch a page or the canvas. *)
Definition is_render_call (c : call) : bool :=
  match c with
  | CGetPage _ | CGetViewport _ | CCreateCanvas | CGetContext
  | CFillRect _ _ | CRender | CToBlob _ _ => true
  | _ => false
  end.

(** The imports a run of [loadPdfJsLocal] makes. *)
Definition local_imports (env : Env) : list call :=
  match importStandard env with
  | Rejected _ => [CImport "pdfjs-dist"; CImport "pdfjs-dist/build/pdf.mjs"]
  | _ => [CImport "pdfjs-dist"]
  end.

(** The loader's memo is sound when every pending load is the memoised one,
    and a script whose handlers have not finished has a pending promise. *)
Definition memo_sound (w : World) : Prop :=
  (forall p l, loads w !! p = Some l -> promise l = Pending -> loadPromise w = Some p) /\
  (forall p l, loads w !! p = Some l -> load_phase l <> Finished -> promise l = Pending).

(** A run in which no script element fires [error]. *)
Definition is_script_error (ev : event) : bool :=
  match ev with
  | EvScriptError _ => true
  | _ => false
  end.

(** The calls a conversion made: what [w'] recorded beyond [w]. *)
Definition calls_since (w w' : World) : list call :=
  drop (length (calls w)) (calls w').

(** The calls of lines 137-185 for a first page whose viewport is [vp]; the
    fill covers the canvas, whose size is the viewport's in whole pixels. *)
Definition render_calls (env : Env) (vp : Viewport) : list call :=
  [CArrayBuffer; CGetDocument; CGetPage 1; CGetViewport (2 # 1); CCreateCanvas;
   CGetContext;
   CFillRect (canvasWidth env (vp_width vp)) (canvasHeight env (vp_height vp)); CRender].

(** Dynamic imports: lines 75 and 79, and the [import(<CDN url>)] of line
    44. *)
Definition is_import (c : call) : bool :=
  match c with
  | CImport _ => true
  | _ => false
  end.

(** The first page's viewport, as the engine answered on the way to it. *)
Definition first_page_viewport (env : Env) (f : File) (w : World) (vp : Viewport) : Prop :=
  exists lib w1 buf pdf page,
    loadPdfJs env w = (Fulfilled lib, w1) /\
    arrayBuffer env f = Fulfilled buf /\
    getDocument env lib buf = Fulfilled pdf /\
    getPage env pdf 1 = Fulfilled page /\
    getViewport env page (2 # 1) = Fulfilled vp.

(** The call of line 190 and the calls of lines 196-202. *)
Definition encode_call : call := CToBlob "image/png" (95 # 100).

Definition package_calls (f : File) : list call :=
  [CNewFile (Name.png_name (name f)); CCreateObjectURL].

(** Two worlds that differ at most in the calls recorded. *)
Definition same_loader (w1 w2 : World) : Prop :=
  pdfjsLib w1 = pdfjsLib w2 /\ isLoading w1 = isLoading w2 /\
  loadPromise w1 = loadPromise w2 /\ loads w1 = loads w2.

(** A fulfilled remote load is final: the engine it delivered carries the CDN
    worker source and is the cached one, the memo points at it, and
    [isLoading] is off. *)
Definition fulfilled_final (w : World) : Prop :=
  forall p l lib,
    loads w !! p = Some l -> promise l = Fulfilled lib ->
    GlobalWorkerOptions lib = Some cdn_worker_url /\
    pdfjsLib w = Some lib /\ loadPromise w = Some p /\ isLoading w = false.

(** Every script element has run its handlers. *)
Definition all_finished (w : World) : Prop :=
  forall p l, loads w !! p = Some l -> load_phase l = Finished.

(** * Properties *)

(** ** The output name *)

Module NameFacts.
Import Name.

Lemma match_here_length s : match_here s = true -> String.length s = 4%nat.
Proof.
  destruct s as [|c0 [|c1 [|c2 [|c3 [|c4 s]]]]]; simpl; try discriminate.
  reflexivity.
Qed.

Lemma length_append (a b : string) :
  String.length (a +:+ b) = (String.length a + String.length b)%nat.
Proof. induction a as [|c a IH]; simpl; [reflexivity | now rewrite IH]. Qed.

(** Before the last four characters the pattern cannot match: [$] fails. *)
Lemma match_here_too_long c base ext :
  is_pdf_ext ext -> match_here (String c (base +:+ ext)) = false.
Proof.
  intros Hext. destruct (match_here _) eqn:E; [|reflexivity].
  apply match_here_length in E. apply match_here_length in Hext.
  simpl in E. rewrite length_append in E. lia.
Qed.

Lemma replace_strips_suffix base ext :
  is_pdf_ext ext -> replace_pdf_suffix (base +:+ ext) = base.
Proof.
  intros Hext. induction base as [|c base IH].
  - simpl. destruct ext; simpl; [reflexivity|]. now rewrite Hext.
  - change (String c base +:+ ext) with (String c (base +:+ ext)).
    cbn [replace_pdf_suffix]. rewrite match_here_too_long by assumption.
    now rewrite IH.
Qed.

Lemma replace_keeps_other s :
  ~ has_pdf_suffix s -> replace_pdf_suffix s = s.
Proof.
  induction s as [|c s IH]; intros Hno; [reflexivity|].
  cbn [replace_pdf_suffix].
  destruct (match_here (String c s)) eqn:E.
  - exfalso. apply Hno. exists "", (String c s). split; [reflexivity | exact E].
  - f_equal. apply IH. intros (base & ext & -> & Hext).
    apply Hno. exists (String c base), ext. split; [reflexivity | exact Hext].
Qed.

Lemma no_suffix_when_short s :
  (String.length s < 4)%nat -> ~ has_pdf_suffix s.
Proof.
  intros Hlen (base & ext & -> & Hext).
  apply match_here_length in Hext. rewrite length_append in Hlen. lia.
Qed.

End NameFacts.

(** ** The computation monad *)

Lemma bind_fulfilled {A B} (m : M A) (k : A -> M B) w a w1 :
  m w = (Fulfilled a, w1) -> bind m k w = k a w1.
Proof. intros H. unfold bind. now rewrite H. Qed.

Lemma bind_rejected {A B} (m : M A) (k : A -> M B) w e w1 :
  m w = (Rejected e, w1) -> bind m k w = (Rejected e, w1).
Proof. intros H. unfold bind. now rewrite H. Qed.

Lemma bind_pending {A B} (m : M A) (k : A -> M B) w w1 :
  m w = (Pending, w1) -> bind m k w = (Pending, w1).
Proof. intros H. unfold bind. now rewrite H. Qed.

(** ** Validation *)

Section ValidationFacts.
Variable env : Env.

Lemma validateFile_null w :
  validateFile env None w = (Rejected (ErrorObj (nullReadMessage env)), w).
Proof. reflexivity. Qed.

(** The checks made on a file object, in the order of the source. *)
Lemma validateFile_checks f w :
  validateFile env (Some f) w =
  (if negb (String.eqb (type f) pdf_mime) then
     Rejected (ErrorObj ("Invalid file type: " +:+ type f +:+ ". Expected: application/pdf"))
   else if size f =? 0 then Rejected (ErrorObj "File is empty")
   else if max_size <? size f then Rejected (ErrorObj "File is too large (max 50MB)")
   else Fulfilled f, w).
Proof.
  unfold validateFile, bind, ret, throw.
  destruct (negb _); [reflexivity|].
  destruct (size f =? 0); [reflexivity|].
  destruct (max_size <? size f); reflexivity.
Qed.

Lemma validateFile_accepts f w :
  type f = pdf_mime -> size f <> 0 -> size f <= max_size ->
  validateFile env (Some f) w = (Fulfilled f, w).
Proof.
  intros Ht Hz Hmax. rewrite validateFile_checks, Ht.
  rewrite String.eqb_refl. simpl negb. cbv iota.
  destruct (N.eqb_spec (size f) 0) as [E|_]; [contradiction|].
  destruct (N.ltb_spec max_size (size f)) as [E|_]; [lia|reflexivity].
Qed.

(** Validation never touches the world, and accepts only the file it got. *)
Lemma validateFile_world file o w1 w :
  validateFile env file w = (o, w1) -> w1 = w.
Proof.
  destruct file as [f|]; [rewrite validateFile_checks | rewrite validateFile_null];
    now intros [= _ <-].
Qed.

Lemma validateFile_fulfilled file f w w1 :
  validateFile env file w = (Fulfilled f, w1) ->
  file = Some f /\ type f = pdf_mime /\ size f <> 0 /\ size f <= max_size.
Proof.
  destruct file as [g|]; [rewrite validateFile_checks | now rewrite validateFile_null].
  destruct (String.eqb_spec (type g) pdf_mime) as [Ht|Ht]; simpl negb; cbv iota;
    [|discriminate].
  destruct (N.eqb_spec (size g) 0) as [E|E]; [discriminate|].
  destruct (N.ltb_spec max_size (size g)) as [L|L]; [discriminate|].
  intros [= -> _]. auto.
Qed.

End ValidationFacts.

(** ** The loader, seen by one caller *)

Section LoaderFacts.
Variable env : Env.

Lemma calls_settle p o w : calls (settle p o w) = calls w.
Proof. reflexivity. Qed.

(** A wait adds at most the import of line 44 to the calls. *)
Lemma calls_drive p w :
  exists remote,
    calls (drive env p w) = calls w ++ remote /\
    (remote = [] \/ remote = [CImport cdn_script_url]).
Proof.
  assert (Himport : forall w0, calls (drive_import env p w0) = calls w0).
  { intros w0. unfold drive_import.
    destruct (phase_of p w0) as [[| |]|]; try reflexivity.
    destruct (cdnImport env p) as [lib|e|]; try reflexivity.
    unfold import_then. destruct (GlobalWorkerOptions lib); reflexivity. }
  unfold drive. rewrite Himport. unfold drive_fetch.
  destruct (phase_of p w) as [[| |]|];
    try (exists []; rewrite app_nil_r; now auto).
  destruct (scriptFetch env p) as [ex|];
    [|exists []; rewrite app_nil_r; now auto].
  unfold script_onload, expose. destruct ex as [lib|]; simpl.
  - exists []. rewrite app_nil_r. destruct (GlobalWorkerOptions lib); auto.
  - destruct (pdfjsLib w) as [lib|].
    + exists []. rewrite app_nil_r. destruct (GlobalWorkerOptions lib); auto.
    + exists [CImport cdn_script_url]. auto.
Qed.

Lemma calls_enter w : calls (snd (loadPdfJsFromCDN_enter w)) = calls w.
Proof.
  unfold loadPdfJsFromCDN_enter.
  destruct (pdfjsLib w); [reflexivity|]. destruct (loadPromise w); reflexivity.
Qed.

(** The remote loader makes at most that one call. *)
Lemma calls_loadPdfJsFromCDN w :
  exists remote,
    calls (snd (loadPdfJsFromCDN env w)) = calls w ++ remote /\
    (remote = [] \/ remote = [CImport cdn_script_url]).
Proof.
  unfold loadPdfJsFromCDN.
  pose proof (calls_enter w) as H.
  destruct (loadPdfJsFromCDN_enter w) as [[lib|p] w1]; simpl in *.
  - exists []. rewrite app_nil_r. auto.
  - destruct (calls_drive p w1) as (remote & Hc & Hr). exists remote.
    rewrite Hc, H. auto.
Qed.

(** The local loader does not touch the loader state. *)
Lemma loadPdfJsLocal_world w :
  let w1 := snd (loadPdfJsLocal env w) in
  pdfjsLib w1 = pdfjsLib w /\ isLoading w1 = isLoading w /\
  loadPromise w1 = loadPromise w /\ loads w1 = loads w /\
  calls w1 = calls w ++ local_imports env.
Proof.
  unfold loadPdfJsLocal, local_imports, tryCatch, bind, await, ret, throw.
  destruct (importStandard env) as [lib|e|]; simpl.
  - destruct (GlobalWorkerOptions lib); simpl; auto.
  - destruct (importBuildPath env) as [lib|e'|]; simpl;
      [destruct (GlobalWorkerOptions lib); simpl|..];
      rewrite <- app_assoc; auto.
  - auto.
Qed.

(** What the local loader answers. *)
Lemma loadPdfJsLocal_outcome w :
  fst (loadPdfJsLocal env w) =
  match importStandard env with
  | Fulfilled lib =>
      Fulfilled (match GlobalWorkerOptions lib with
                 | Some _ => setWorkerSrc local_worker_url lib
                 | None => lib
                 end)
  | Rejected _ =>
      match importBuildPath env with
      | Fulfilled lib =>
          Fulfilled (match GlobalWorkerOptions lib with
                     | Some _ => setWorkerSrc local_worker_url lib
                     | None => lib
                     end)
      | Rejected e => Rejected e
      | Pending => Pending
      end
  | Pending => Pending
  end.
Proof.
  unfold loadPdfJsLocal, tryCatch, bind, await, ret, throw.
  destruct (importStandard env) as [lib|e|]; simpl.
  - destruct (GlobalWorkerOptions lib); reflexivity.
  - destruct (importBuildPath env) as [lib|e'|]; simpl; try reflexivity.
    destruct (GlobalWorkerOptions lib); reflexivity.
  - reflexivity.
Qed.

(** The calls of [loadPdfJs]: the local imports, then at most the import of
    line 44. *)
Lemma loadPdfJs_calls w :
  exists remote,
    calls (snd (loadPdfJs env w)) = calls w ++ local_imports env ++ remote /\
    (remote = [] \/ remote = [CImport cdn_script_url]).
Proof.
  unfold loadPdfJs, tryCatch.
  pose proof (loadPdfJsLocal_world w) as (_ & _ & _ & _ & Hc).
  destruct (loadPdfJsLocal env w) as [[lib|e|] w1]; simpl in *;
    try (exists []; rewrite app_nil_r; now auto).
  destruct (calls_loadPdfJsFromCDN w1) as (remote & Hcdn & Hr).
  exists remote. split; [|exact Hr].
  destruct (loadPdfJsFromCDN env w1) as [[lib|e'|] w2]; simpl in *;
    rewrite Hcdn, Hc, <- app_assoc; reflexivity.
Qed.

End LoaderFacts.

(** X14. [loadPdfJs] tries the bundled engine first: its first call is the
    package import.  When the local attempt succeeds its engine is the
    answer and nothing remote is touched (no script element, memo unchanged).
    While the local attempt stays pending so does [loadPdfJs], again with
    nothing remote touched.  A script element is injected only after the
    local attempt failed; the remote attempt then starts from the state the
    local one left, and its engine is the answer when it succeeds.  When both
    fail with values that have a [message], as every [Error] has, [loadPdfJs]
    fails with the single message
    [PDF.js loading failed: Local: <local message>, CDN: <CDN message>]. *)
Theorem loadPdfJs_local_then_cdn (env : Env) (w : World) :
  (exists rest,
     calls (snd (loadPdfJs env w)) = calls w ++ CImport "pdfjs-dist" :: rest) /\
  (forall lib w1,
     loadPdfJsLocal env w = (Fulfilled lib, w1) ->
     loadPdfJs env w = (Fulfilled lib, w1) /\
     loads w1 = loads w /\ loadPromise w1 = loadPromise w) /\
  (forall w1,
     loadPdfJsLocal env w = (Pending, w1) ->
     loadPdfJs env w = (Pending, w1) /\ loads w1 = loads w) /\
  (loads (snd (loadPdfJs env w)) <> loads w ->
   exists eL, fst (loadPdfJsLocal env w) = Rejected eL) /\
  (forall eL w1 lib w2,
     loadPdfJsLocal env w = (Rejected eL, w1) ->
     loadPdfJsFromCDN env w1 = (Fulfilled lib, w2) ->
     loadPdfJs env w = (Fulfilled lib, w2)) /\
  (forall eL w1 eC w2 mL mC,
     loadPdfJsLocal env w = (Rejected eL, w1) ->
     loadPdfJsFromCDN env w1 = (Rejected eC, w2) ->
     messageOf eL = inl mL -> messageOf eC = inl mC ->
     loadPdfJs env w =
       (Rejected (ErrorObj ("PDF.js loading failed: Local: " +:+ mL
                            +:+ ", CDN: " +:+ mC)), w2)).
Proof.
  pose proof (loadPdfJsLocal_world env w) as (_ & _ & Hmemo & Hloads & _).
  repeat split.
  - destruct (loadPdfJs_calls env w) as (remote & -> & _). unfold local_imports.
    destruct (importStandard env); simpl; eauto.
  - unfold loadPdfJs, tryCatch. now rewrite H.
  - rewrite H in Hloads. exact Hloads.
  - rewrite H in Hmemo. exact Hmemo.
  - unfold loadPdfJs, tryCatch. now rewrite H.
  - rewrite H in Hloads. exact Hloads.
  - intros Hchanged. unfold loadPdfJs, tryCatch in Hchanged.
    destruct (loadPdfJsLocal env w) as [[lib|e|] w1]; simpl in *;
      [contradiction | eauto | contradiction].
  - intros eL w1 lib w2 Hlocal Hcdn. unfold loadPdfJs, tryCatch.
    now rewrite Hlocal, Hcdn.
  - intros eL w1 eC w2 mL mC Hlocal Hcdn HmL HmC.
    unfold loadPdfJs, tryCatch, throw, combinedFailure.
    now rewrite Hlocal, Hcdn, HmL, HmC.
Qed.

Lemma loadPdfJs_local_then_cdn_witness :
  fst (loadPdfJs Sample.offline initial) =
  Rejected (ErrorObj "PDF.js loading failed: Local: Cannot find module 'pdfjs-dist/build/pdf.mjs', CDN: Failed to load PDF.js from CDN").
Proof.
  destruct (loadPdfJs_local_then_cdn Sample.offline initial) as (_ & _ & _ & _ & _ & H).
  rewrite (H (ErrorObj "Cannot find module 'pdfjs-dist/build/pdf.mjs'")
             (snd (loadPdfJsLocal Sample.offline initial))
             (ErrorObj "Failed to load PDF.js from CDN")
             (snd (loadPdfJs Sample.offline initial))
             "Cannot find module 'pdfjs-dist/build/pdf.mjs'"
             "Failed to load PDF.js from CDN"
             eq_refl eq_refl eq_refl eq_refl).
  reflexivity.
Defined.

(** C7, at its failing inputs.  Line 106 reads [.message] off whatever the
    two attempts threw, without the [instanceof Error] test that the [catch]
    of line 220 makes.  When the local attempt was rejected with [null] or
    [undefined], the read throws and [loadPdfJs] fails with that [TypeError]
    instead of the combined message; when it was rejected with a value that
    has no [message], the combined message reads [Local: undefined] and names
    no cause. *)
Theorem loadPdfJs_loses_non_error_causes :
  (forall env w w1 w2 v eC,
     loadPdfJsLocal env w = (Rejected (Nullish v), w1) ->
     loadPdfJsFromCDN env w1 = (Rejected eC, w2) ->
     loadPdfJs env w = (Rejected (ErrorObj (messageReadError env v)), w2)) /\
  fst (loadPdfJs
         (Sample.with_imports (Rejected (ErrorObj "Cannot find module 'pdfjs-dist'"))
            (Rejected (Nullish JsNull)) ScriptFails Pending Sample.healthy)
         initial) =
    Rejected (ErrorObj "Cannot read properties of null (reading 'message')") /\
  fst (loadPdfJs
         (Sample.with_imports (Rejected (ErrorObj "Cannot find module 'pdfjs-dist'"))
            (Rejected (NonError "worker build missing" None)) ScriptFails Pending
            Sample.healthy)
         initial) =
    Rejected (ErrorObj
      "PDF.js loading failed: Local: undefined, CDN: Failed to load PDF.js from CDN").
Proof.
  split; [|split; reflexivity].
  intros env w w1 w2 v eC Hlocal Hcdn.
  unfold loadPdfJs, tryCatch, throw, combinedFailure. now rewrite Hlocal, Hcdn.
Qed.

(** ** The conversion *)

Section ConversionFacts.
Variable env : Env.

Lemma conversionSteps_cases file w :
  conversionSteps env file w =
  match validateFile env file w with
  | (Fulfilled f, w1) =>
      match renderFirstPage env f w1 with
      | (Fulfilled pc, w2) => (Fulfilled (f, pc), w2)
      | (Rejected e, w2) => (Rejected e, w2)
      | (Pending, w2) => (Pending, w2)
      end
  | (Rejected e, w1) => (Rejected e, w1)
  | (Pending, w1) => (Pending, w1)
  end.
Proof.
  unfold conversionSteps, bind, ret.
  destruct (validateFile env file w) as [[f|e|] w1]; reflexivity.
Qed.

(** The [try]/[catch] of [convertPdfToImage], case by case. *)
Lemma convertPdfToImage_cases file w :
  convertPdfToImage env file w =
  match conversionSteps env file w with
  | (Fulfilled (f, (page, canvas)), w1) => encode env f page canvas w1
  | (Rejected e, w1) => (Fulfilled (failure (errorMessage e)), w1)
  | (Pending, w1) => (Pending, w1)
  end.
Proof.
  unfold convertPdfToImage, bind, tryCatch, ret.
  destruct (conversionSteps env file w) as [[[f [page canvas]]|e|] w1]; reflexivity.
Qed.

(** How the encode promise settles. *)
Lemma encode_outcome f page canvas w :
  fst (encode env f page canvas w) =
  match toBlob env page canvas with
  | Fulfilled (Some blob) =>
      Fulfilled
        (if 0 <? blob_size blob then
           mkResult (createObjectURL env blob)
             (Some (mkFile (Name.png_name (name f)) "image/png" (blob_size blob))) None
         else failure "Failed to create image blob or blob is empty")
  | Fulfilled None => Fulfilled (failure "Failed to create image blob or blob is empty")
  | Rejected e => Rejected e
  | Pending => Pending
  end.
Proof.
  unfold encode, bind, await, perform, ret.
  destruct (toBlob env page canvas) as [[blob|]|e|]; try reflexivity.
  destruct (0 <? blob_size blob); reflexivity.
Qed.

Lemma encode_calls f page canvas w :
  exists made,
    calls (snd (encode env f page canvas w)) = calls w ++ CToBlob "image/png" (95 # 100) :: made.
Proof.
  unfold encode, bind, await, perform, ret.
  destruct (toBlob env page canvas) as [[blob|]|e|]; try (simpl; now eauto).
  destruct (0 <? blob_size blob); simpl; [|eauto].
  rewrite <- !app_assoc. simpl. eauto.
Qed.

Lemma createObjectURL_nonempty blob : createObjectURL env blob <> "".
Proof. discriminate. Qed.

(** Every conversion stays pending, is fulfilled with a failure record or
    with a packaged image, or is rejected with what [toBlob] threw. *)
Lemma convertPdfToImage_shape file w :
  fst (convertPdfToImage env file w) = Pending \/
  (exists msg, fst (convertPdfToImage env file w) = Fulfilled (failure msg)) \/
  (exists f blob,
     file = Some f /\ 0 < blob_size blob /\
     fst (convertPdfToImage env file w) =
       Fulfilled (mkResult (createObjectURL env blob)
                    (Some (mkFile (Name.png_name (name f)) "image/png" (blob_size blob)))
                    None)) \/
  (exists e f page canvas w1,
     conversionSteps env file w = (Fulfilled (f, (page, canvas)), w1) /\
     toBlob env page canvas = Rejected e /\
     fst (convertPdfToImage env file w) = Rejected e).
Proof.
  rewrite convertPdfToImage_cases.
  destruct (conversionSteps env file w) as [[[f [page canvas]]|e|] w1] eqn:Hsteps;
    simpl; eauto.
  rewrite conversionSteps_cases in Hsteps.
  destruct (validateFile env file w) as [[g|e|] w0] eqn:Hv; try discriminate.
  apply validateFile_fulfilled in Hv as (-> & _).
  destruct (renderFirstPage env g w0) as [[[pg cv]|e|] w2]; try discriminate.
  injection Hsteps as <- <- <- <-.
  rewrite encode_outcome.
  destruct (toBlob env pg cv) as [[blob|]|e|] eqn:Hblob; eauto.
  - destruct (N.ltb_spec 0 (blob_size blob)); eauto 10.
  - right. right. right. exists e, g, pg, cv, w2. auto.
Qed.

End ConversionFacts.

(** C1, at its failing inputs.  The encode promise of lines 188-217 is
    returned from inside the [try] without [await], and its executor only
    ever resolves: when [canvas.toBlob] throws, the promise
    [convertPdfToImage] returns is rejected with what it threw, and the
    [catch] of line 218 does not see it.  And a failure that settles nothing
    resolves to nothing: when the CDN script loads a global without
    [GlobalWorkerOptions], line 38 throws inside the [load] handler, the load
    promise stays pending and so does the conversion. *)
Theorem unawaited_encode_promise_rejects :
  (forall env file w f page canvas w1 e,
     conversionSteps env file w = (Fulfilled (f, (page, canvas)), w1) ->
     toBlob env page canvas = Rejected e ->
     fst (convertPdfToImage env file w) = Rejected e) /\
  fst (convertPdfToImage
         (Sample.with_encoder (Rejected (ErrorObj "The operation is insecure."))
            Sample.healthy)
         (Some Sample.resume) initial) =
    Rejected (ErrorObj "The operation is insecure.") /\
  fst (convertPdfToImage
         (Sample.with_imports (Rejected (ErrorObj "Cannot find module 'pdfjs-dist'"))
            (Rejected (ErrorObj "Cannot find module 'pdfjs-dist/build/pdf.mjs'"))
            (ScriptLoads (Some (mkLib cdn_script_url None))) Pending Sample.healthy)
         (Some Sample.resume) initial) = Pending.
Proof.
  split; [|split; reflexivity].
  intros env file w f page canvas w1 e Hsteps Hblob.
  now rewrite convertPdfToImage_cases, Hsteps, encode_outcome, Hblob.
Qed.

(** X15. Every failure inside the [try] block resolves to a result with
    [error] set and no image: a failed validation, a failed engine load, any
    failure while reading, parsing or rendering.  So does an encode whose
    callback is handed no blob or an empty one.  The promise
    [convertPdfToImage] returns is rejected in one case only: [canvas.toBlob]
    itself threw, after every earlier step had succeeded. *)
Theorem caught_failures_resolve_with_error
    (env : Env) (file : option File) (w : World) :
  (forall e,
     fst (convertPdfToImage env file w) = Rejected e ->
     exists f page canvas w1,
       conversionSteps env file w = (Fulfilled (f, (page, canvas)), w1) /\
       toBlob env page canvas = Rejected e) /\
  (forall e w1,
     validateFile env file w = (Rejected e, w1) ->
     convertPdfToImage env file w =
       (Fulfilled (mkResult "" None (Some (errorMessage e))), w1)) /\
  (forall f w1 e w2,
     validateFile env file w = (Fulfilled f, w1) ->
     loadPdfJs env w1 = (Rejected e, w2) ->
     convertPdfToImage env file w =
       (Fulfilled (mkResult "" None (Some (errorMessage e))), w2)) /\
  (forall f w1 e w2,
     validateFile env file w = (Fulfilled f, w1) ->
     renderFirstPage env f w1 = (Rejected e, w2) ->
     convertPdfToImage env file w =
       (Fulfilled (mkResult "" None (Some (errorMessage e))), w2)) /\
  (forall f w1 page canvas w2,
     validateFile env file w = (Fulfilled f, w1) ->
     renderFirstPage env f w1 = (Fulfilled (page, canvas), w2) ->
     (toBlob env page canvas = Fulfilled None \/
      exists blob, toBlob env page canvas = Fulfilled (Some blob) /\ blob_size blob = 0) ->
     exists msg,
       fst (convertPdfToImage env file w) = Fulfilled (mkResult "" None (Some msg))).
Proof.
  split; [|split; [|split; [|split]]].
  - intros e He.
    destruct (convertPdfToImage_shape env file w)
      as [H|[(msg & H)|[(f & blob & _ & _ & H)|(e' & f & page & canvas & w1 & Hs & Hb & H)]]];
      rewrite H in He; try discriminate.
    injection He as <-. exists f, page, canvas, w1. split; assumption.
  - intros e w1 Hv.
    now rewrite convertPdfToImage_cases, conversionSteps_cases, Hv.
  - intros f w1 e w2 Hv Hl.
    rewrite convertPdfToImage_cases, conversionSteps_cases, Hv.
    unfold renderFirstPage. now rewrite (bind_rejected _ _ _ _ _ Hl).
  - intros f w1 e w2 Hv Hr.
    now rewrite convertPdfToImage_cases, conversionSteps_cases, Hv, Hr.
  - intros f w1 page canvas w2 Hv Hr Hblob.
    rewrite convertPdfToImage_cases, conversionSteps_cases, Hv, Hr, encode_outcome.
    destruct Hblob as [-> | (blob & -> & ->)]; eexists; reflexivity.
Qed.

Lemma caught_failures_resolve_with_error_witness :
  convertPdfToImage Sample.offline (Some Sample.resume) initial =
  (Fulfilled
     (mkResult "" None
        (Some "PDF.js loading failed: Local: Cannot find module 'pdfjs-dist/build/pdf.mjs', CDN: Failed to load PDF.js from CDN")),
   snd (loadPdfJs Sample.offline initial)).
Proof.
  destruct (caught_failures_resolve_with_error Sample.offline (Some Sample.resume) initial)
    as (_ & _ & H & _).
  exact (H Sample.resume initial
           (ErrorObj "PDF.js loading failed: Local: Cannot find module 'pdfjs-dist/build/pdf.mjs', CDN: Failed to load PDF.js from CDN")
           (snd (loadPdfJs Sample.offline initial)) eq_refl eq_refl).
Defined.

(** C2. Every result [convertPdfToImage] resolves to has exactly one of the
    two shapes: an image ([file] non-null and [imageUrl] non-empty) without
    [error], or an [error] without an image; never neither. *)
Theorem convertPdfToImage_result_invariant
    (env : Env) (file : option File) (w : World) (r : PdfConversionResult) :
  fst (convertPdfToImage env file w) = Fulfilled r ->
  (has_image r /\ ~ has_error r) \/ (~ has_image r /\ has_error r).
Proof.
  intros Hr.
  destruct (convertPdfToImage_shape env file w)
    as [H|[(msg & H)|[(f & blob & _ & _ & H)|(e & f & page & canvas & w1 & _ & _ & H)]]];
    rewrite H in Hr; try discriminate; injection Hr as <-.
  - right. unfold has_image, has_error. simpl. split; [|discriminate].
    intros [Hfile _]. now apply Hfile.
  - left. unfold has_image, has_error. simpl. split; [|intros Hn; now apply Hn].
    split; [discriminate | apply createObjectURL_nonempty].
Qed.

Lemma convertPdfToImage_result_invariant_witness :
  let r := mkResult "blob:https://app.example/0b5c7f0e-7d9e-4c62-9d53-3a1f4f6f2a10"
             (Some (mkFile "resume.png" "image/png" 48213)) None in
  (has_image r /\ ~ has_error r) \/ (~ has_image r /\ has_error r).
Proof.
  exact (convertPdfToImage_result_invariant Sample.healthy (Some Sample.resume) initial _
           eq_refl).
Defined.

(** C3, at its failing input.  For a null [file] the [console.log] of line
    115 reads [file.name] before the check of line 118 is reached: the result
    carries the runtime's [TypeError] message, and the message
    [No file provided] of line 119 is never produced. *)
Theorem null_file_skips_its_check (env : Env) (w : World) :
  convertPdfToImage env None w =
    (Fulfilled (mkResult "" None (Some (nullReadMessage env))), w) /\
  fst (convertPdfToImage Sample.healthy None initial) =
    Fulfilled (mkResult "" None (Some "Cannot read properties of null (reading 'name')")) /\
  fst (convertPdfToImage Sample.healthy None initial) <>
    Fulfilled (mkResult "" None (Some "No file provided")).
Proof.
  split; [reflexivity|]. split; [reflexivity|]. discriminate.
Qed.

(** For a file object the remaining checks run in the order of the source and
    the first violated one decides the error. *)
Lemma validation_order (env : Env) (f : File) (w : World) :
  (type f <> pdf_mime ->
   convertPdfToImage env (Some f) w =
     (Fulfilled (failure ("Invalid file type: " +:+ type f
                          +:+ ". Expected: application/pdf")), w)) /\
  (type f = pdf_mime -> size f = 0 ->
   convertPdfToImage env (Some f) w = (Fulfilled (failure "File is empty"), w)) /\
  (type f = pdf_mime -> size f <> 0 -> max_size < size f ->
   convertPdfToImage env (Some f) w =
     (Fulfilled (failure "File is too large (max 50MB)"), w)).
Proof.
  rewrite convertPdfToImage_cases, conversionSteps_cases, validateFile_checks.
  repeat split.
  - intros Ht. destruct (String.eqb_spec (type f) pdf_mime); [contradiction|reflexivity].
  - intros -> ->. reflexivity.
  - intros -> Hz Hbig. simpl negb. cbv iota.
    destruct (N.eqb_spec (size f) 0); [contradiction|].
    destruct (N.ltb_spec max_size (size f)); [reflexivity|lia].
Qed.

(** C4. A PDF-typed, non-empty file strictly larger than [50 * 1024 * 1024]
    bytes is answered with the size-limit error, before anything is loaded.
    A file of exactly that many bytes passes validation, and in a healthy
    browser it is converted. *)
Theorem size_limit_is_exclusive (env : Env) (f : File) (w : World) :
  max_size = 52428800 /\
  (type f = pdf_mime -> size f <> 0 -> max_size < size f ->
   convertPdfToImage env (Some f) w =
     (Fulfilled (mkResult "" None (Some "File is too large (max 50MB)")), w)) /\
  (type f = pdf_mime -> size f = 50 * 1024 * 1024 ->
   validateFile env (Some f) w = (Fulfilled f, w) /\
   convertPdfToImage env (Some f) w =
     match renderFirstPage env f w with
     | (Fulfilled (page, canvas), w1) => encode env f page canvas w1
     | (Rejected e, w1) => (Fulfilled (failure (errorMessage e)), w1)
     | (Pending, w1) => (Pending, w1)
     end) /\
  (exists r,
     fst (convertPdfToImage Sample.healthy
            (Some (mkFile "big.pdf" pdf_mime (50 * 1024 * 1024))) initial) = Fulfilled r /\
     error r = None).
Proof.
  split; [reflexivity|]. split; [|split].
  - apply validation_order.
  - intros Ht Hs.
    assert (Hv : validateFile env (Some f) w = (Fulfilled f, w)).
    { apply validateFile_accepts; [assumption| |]; rewrite Hs; now vm_compute. }
    split; [exact Hv|].
    rewrite convertPdfToImage_cases, conversionSteps_cases, Hv.
    destruct (renderFirstPage env f w) as [[[page canvas]|e|] w1]; reflexivity.
  - eexists. split; [vm_compute; reflexivity | reflexivity].
Qed.

Lemma size_limit_is_exclusive_witness :
  convertPdfToImage Sample.offline (Some (mkFile "scan.pdf" pdf_mime 52428801)) initial =
    (Fulfilled (mkResult "" None (Some "File is too large (max 50MB)")), initial) /\
  validateFile Sample.offline (Some (mkFile "scan.pdf" pdf_mime 52428800)) initial =
    (Fulfilled (mkFile "scan.pdf" pdf_mime 52428800), initial).
Proof.
  split.
  - apply (size_limit_is_exclusive Sample.offline (mkFile "scan.pdf" pdf_mime 52428801) initial);
      [reflexivity | discriminate | reflexivity].
  - apply (size_limit_is_exclusive Sample.offline (mkFile "scan.pdf" pdf_mime 52428800) initial);
      reflexivity.
Defined.

Section RenderFacts.
Variable env : Env.

(** The run of [renderFirstPage] on a document without pages. *)
Lemma renderFirstPage_no_pages f w lib w1 buf pdf :
  loadPdfJs env w = (Fulfilled lib, w1) ->
  arrayBuffer env f = Fulfilled buf ->
  getDocument env lib buf = Fulfilled pdf ->
  numPages pdf = 0 ->
  fst (renderFirstPage env f w) = Rejected (ErrorObj "PDF has no pages") /\
  calls (snd (renderFirstPage env f w)) = calls w1 ++ [CArrayBuffer; CGetDocument].
Proof.
  intros Hl Hb Hd Hn. unfold renderFirstPage.
  rewrite (bind_fulfilled _ _ _ _ _ Hl).
  unfold bind, await, throw. rewrite Hb. cbn [calls set_calls].
  rewrite Hd, Hn. cbn. rewrite <- app_assoc. auto.
Qed.

(** The run of [renderFirstPage] when every step succeeds. *)
Lemma renderFirstPage_success f w lib w1 buf pdf page vp :
  loadPdfJs env w = (Fulfilled lib, w1) ->
  arrayBuffer env f = Fulfilled buf ->
  getDocument env lib buf = Fulfilled pdf ->
  numPages pdf <> 0 ->
  getPage env pdf 1 = Fulfilled page ->
  getViewport env page (2 # 1) = Fulfilled vp ->
  context2d env = true ->
  render env page vp = Fulfilled tt ->
  fst (renderFirstPage env f w) =
    Fulfilled (page, mkCanvas (canvasWidth env (vp_width vp))
                              (canvasHeight env (vp_height vp))).
Proof.
  intros Hl Hb Hd Hn Hp Hv Hc Hr. unfold renderFirstPage.
  rewrite (bind_fulfilled _ _ _ _ _ Hl).
  unfold bind, await, perform, throw, ret. rewrite Hb. cbn [calls set_calls].
  rewrite Hd. apply N.eqb_neq in Hn. rewrite Hn, Hp, Hv, Hc. cbn.
  now rewrite Hr.
Qed.

End RenderFacts.

(** C5. A valid PDF file whose first page is fetched, rendered and encoded to
    a non-empty blob is answered with an image and no error: the file is
    named after the source with a trailing [.pdf] replaced by [.png], its
    type is [image/png], its size is the blob's and is not zero, and
    [imageUrl] is the blob URL, which is not empty. *)
Theorem convertPdfToImage_success
    (env : Env) (f : File) (w w1 : World) (lib : Lib) (buf : ArrayBuffer)
    (pdf : PdfDoc) (page : Page) (vp : Viewport) (blob : Blob) :
  type f = pdf_mime -> size f <> 0 -> size f <= max_size ->
  loadPdfJs env w = (Fulfilled lib, w1) ->
  arrayBuffer env f = Fulfilled buf ->
  getDocument env lib buf = Fulfilled pdf ->
  numPages pdf = 1 ->
  getPage env pdf 1 = Fulfilled page ->
  getViewport env page (2 # 1) = Fulfilled vp ->
  context2d env = true ->
  render env page vp = Fulfilled tt ->
  toBlob env page (mkCanvas (canvasWidth env (vp_width vp))
                            (canvasHeight env (vp_height vp))) =
    Fulfilled (Some blob) ->
  0 < blob_size blob ->
  exists out,
    fst (convertPdfToImage env (Some f) w) =
      Fulfilled (mkResult (createObjectURL env blob) (Some out) None) /\
    name out = Name.replace_pdf_suffix (name f) +:+ ".png" /\
    (forall base ext, name f = base +:+ ext -> Name.is_pdf_ext ext ->
       name out = base +:+ ".png") /\
    type out = "image/png" /\
    size out = blob_size blob /\ size out <> 0 /\
    createObjectURL env blob <> "".
Proof.
  intros Ht Hz Hmax Hl Hb Hd Hn Hp Hv Hc Hr Hblob Hsize.
  exists (mkFile (Name.png_name (name f)) "image/png" (blob_size blob)).
  split; [|repeat split].
  - rewrite convertPdfToImage_cases, conversionSteps_cases.
    rewrite (validateFile_accepts env f w Ht Hz Hmax).
    assert (Hn0 : numPages pdf <> 0) by (rewrite Hn; discriminate).
    pose proof (renderFirstPage_success env f w lib w1 buf pdf page vp
                  Hl Hb Hd Hn0 Hp Hv Hc Hr) as Hrender.
    destruct (renderFirstPage env f w) as [o w2]. simpl in Hrender. subst o.
    rewrite encode_outcome, Hblob.
    apply N.ltb_lt in Hsize. now rewrite Hsize.
  - intros base ext -> Hext. cbn [name]. unfold Name.png_name.
    now rewrite NameFacts.replace_strips_suffix.
  - cbn [size]. lia.
  - discriminate.
Qed.

Lemma convertPdfToImage_success_witness :
  exists out,
    fst (convertPdfToImage Sample.healthy (Some Sample.resume) initial) =
      Fulfilled (mkResult (createObjectURL Sample.healthy Sample.png) (Some out) None) /\
    name out = "resume.png" /\ type out = "image/png" /\ size out = 48213.
Proof.
  destruct (convertPdfToImage_success Sample.healthy Sample.resume initial
              (snd (loadPdfJs Sample.healthy initial))
              (setWorkerSrc local_worker_url Sample.engine)
              (mkArrayBuffer 181004) (mkPdfDoc 0 1) (mkPage 0 1)
              Sample.letter Sample.png)
    as (out & Hres & Hname & _ & Htype & Hsize & _);
    try reflexivity; try discriminate.
  exists out. rewrite Hname. auto.
Defined.

(** C6. When the encoder hands the callback no blob, or an empty one, the
    conversion resolves to the record with empty [imageUrl], null [file] and
    the error [Failed to create image blob or blob is empty]; the loader
    state is the one the render left. *)
Theorem empty_blob_resolves_with_error
    (env : Env) (file : option File) (w w1 : World) (f : File)
    (page : Page) (canvas : Canvas) :
  conversionSteps env file w = (Fulfilled (f, (page, canvas)), w1) ->
  (toBlob env page canvas = Fulfilled None \/
   exists blob, toBlob env page canvas = Fulfilled (Some blob) /\ blob_size blob = 0) ->
  fst (convertPdfToImage env file w) =
    Fulfilled (mkResult "" None (Some "Failed to create image blob or blob is empty")) /\
  calls (snd (convertPdfToImage env file w)) = calls w1 ++ [CToBlob "image/png" (95 # 100)] /\
  loads (snd (convertPdfToImage env file w)) = loads w1.
Proof.
  intros Hsteps Hblob.
  rewrite convertPdfToImage_cases, Hsteps.
  unfold encode, bind, await, perform, ret.
  destruct Hblob as [-> | (blob & -> & ->)]; auto.
Qed.

Lemma empty_blob_resolves_with_error_witness :
  fst (convertPdfToImage (Sample.with_blob None Sample.healthy)
         (Some Sample.resume) initial) =
    Fulfilled (mkResult "" None (Some "Failed to create image blob or blob is empty")) /\
  fst (convertPdfToImage (Sample.with_blob (Some (mkBlob 0 "image/png")) Sample.healthy)
         (Some Sample.resume) initial) =
    Fulfilled (mkResult "" None (Some "Failed to create image blob or blob is empty")).
Proof.
  split.
  - refine (proj1 (empty_blob_resolves_with_error (Sample.with_blob None Sample.healthy)
                     (Some Sample.resume) initial _ Sample.resume (mkPage 0 1)
                     (mkCanvas 1224 1584) eq_refl _)).
    left. reflexivity.
  - refine (proj1 (empty_blob_resolves_with_error
                     (Sample.with_blob (Some (mkBlob 0 "image/png")) Sample.healthy)
                     (Some Sample.resume) initial _ Sample.resume (mkPage 0 1)
                     (mkCanvas 1224 1584) eq_refl _)).
    right. eexists. split; reflexivity.
Defined.

(** C8. When the parsed document reports zero pages the conversion resolves
    to the error [PDF has no pages]; the calls it made are the loader's
    imports (the local ones and, when the [load] handler had to make it, the
    import of the CDN module), the byte read and the parse, none of which
    touches a page or the canvas. *)
Theorem zero_pages_is_an_error
    (env : Env) (f : File) (w w1 : World) (lib : Lib) (buf : ArrayBuffer) (pdf : PdfDoc) :
  type f = pdf_mime -> size f <> 0 -> size f <= max_size ->
  loadPdfJs env w = (Fulfilled lib, w1) ->
  arrayBuffer env f = Fulfilled buf ->
  getDocument env lib buf = Fulfilled pdf ->
  numPages pdf = 0 ->
  fst (convertPdfToImage env (Some f) w) =
    Fulfilled (mkResult "" None (Some "PDF has no pages")) /\
  exists remote,
    (remote = [] \/ remote = [CImport cdn_script_url]) /\
    calls (snd (convertPdfToImage env (Some f) w)) =
      calls w ++ local_imports env ++ remote ++ [CArrayBuffer; CGetDocument] /\
    Forall (fun c => is_render_call c = false)
      (local_imports env ++ remote ++ [CArrayBuffer; CGetDocument]).
Proof.
  intros Ht Hz Hmax Hl Hb Hd Hn.
  pose proof (renderFirstPage_no_pages env f w lib w1 buf pdf Hl Hb Hd Hn) as [Ho Hc].
  destruct (loadPdfJs_calls env w) as (remote & Hlc & Hremote).
  rewrite Hl in Hlc. simpl in Hlc.
  rewrite convertPdfToImage_cases, conversionSteps_cases.
  rewrite (validateFile_accepts env f w Ht Hz Hmax).
  destruct (renderFirstPage env f w) as [o w2]. simpl in Ho, Hc. subst o.
  cbn [fst snd errorMessage failure].
  split; [reflexivity|]. exists remote. split; [exact Hremote|]. split.
  - rewrite Hc, Hlc. now rewrite <- !app_assoc.
  - apply Forall_app. split.
    + unfold local_imports. destruct (importStandard env); repeat constructor.
    + destruct Hremote as [-> | ->]; repeat constructor.
Qed.

Lemma zero_pages_is_an_error_witness :
  fst (convertPdfToImage (Sample.with_document (Fulfilled (mkPdfDoc 7 0)) Sample.healthy)
         (Some Sample.resume) initial) =
    Fulfilled (mkResult "" None (Some "PDF has no pages")) /\
  calls (snd (convertPdfToImage
                (Sample.with_document (Fulfilled (mkPdfDoc 7 0)) Sample.healthy)
                (Some Sample.resume) initial)) =
    [CImport "pdfjs-dist"; CArrayBuffer; CGetDocument].
Proof.
  destruct (zero_pages_is_an_error
              (Sample.with_document (Fulfilled (mkPdfDoc 7 0)) Sample.healthy)
              Sample.resume initial
              (snd (loadPdfJs Sample.healthy initial))
              (setWorkerSrc local_worker_url Sample.engine)
              (mkArrayBuffer 181004) (mkPdfDoc 7 0))
    as (Hres & remote & _ & _ & _);
    try reflexivity; try discriminate.
  split; [exact Hres | reflexivity].
Defined.

(** C10. The output name drops a trailing [.pdf], in any letter case, and
    nothing else, before [.png] is appended: a name [base ++ ext] with [ext]
    such an extension becomes [base ++ ".png"], whatever [base] contains; a
    name without that ending keeps all its characters and gets [.png]
    appended.  The packaged file carries exactly that name. *)
Theorem png_name_strips_only_trailing_pdf :
  (forall env f page canvas blob w,
     toBlob env page canvas = Fulfilled (Some blob) -> 0 < blob_size blob ->
     exists r out,
       fst (encode env f page canvas w) = Fulfilled r /\
       file r = Some out /\ name out = Name.png_name (name f)) /\
  (forall base ext, Name.is_pdf_ext ext -> Name.png_name (base +:+ ext) = base +:+ ".png") /\
  Name.is_pdf_ext ".pdf" /\ Name.is_pdf_ext ".PDF" /\ Name.is_pdf_ext ".Pdf" /\
  (forall file_name, ~ Name.has_pdf_suffix file_name ->
     Name.png_name file_name = file_name +:+ ".png") /\
  Name.png_name "doc" = "doc.png" /\
  Name.png_name "doc.txt" = "doc.txt.png" /\
  Name.png_name "doc.pdf" = "doc.png" /\
  Name.png_name "DOC.PDF" = "DOC.png" /\
  Name.png_name "cv.pdf.txt" = "cv.pdf.txt.png" /\
  Name.png_name "cv.pdf.v2.pdf" = "cv.pdf.v2.png" /\
  Name.png_name "cv.pdfx" = "cv.pdfx.png" /\
  Name.png_name "pdf" = "pdf.png".
Proof.
  split; [|split; [|repeat split]].
  - intros env f page canvas blob w Hblob Hsize.
    do 2 eexists. rewrite encode_outcome, Hblob.
    apply N.ltb_lt in Hsize. rewrite Hsize. repeat split.
  - intros base ext Hext. unfold Name.png_name.
    now rewrite NameFacts.replace_strips_suffix.
  - intros file_name Hno. unfold Name.png_name.
    now rewrite NameFacts.replace_keeps_other.
Qed.

Lemma png_name_strips_only_trailing_pdf_witness :
  Name.png_name ("Jane Doe - CV" +:+ ".pDf") = "Jane Doe - CV" +:+ ".png" /\
  Name.png_name "cv" = "cv" +:+ ".png".
Proof.
  destruct png_name_strips_only_trailing_pdf as (_ & Hstrip & _ & _ & _ & Hkeep & _).
  split.
  - apply Hstrip. reflexivity.
  - apply Hkeep. apply NameFacts.no_suffix_when_short. simpl. lia.
Defined.

(** ** The loader, seen by many callers *)

Section SingleFlight.
Variable env : Env.

Local Open Scope nat_scope.

Lemma memo_sound_initial : memo_sound initial.
Proof. split; intros p l Hl; inversion Hl. Qed.

(** A handler that rewrites the p-th load without reviving its promise keeps
    the memo sound. *)
Lemma memo_sound_alter g p w w' :
  memo_sound w ->
  loadPromise w' = loadPromise w ->
  loads w' = alter g p (loads w) ->
  (forall l, loads w !! p = Some l -> promise (g l) = Pending -> promise l = Pending) ->
  (forall l, loads w !! p = Some l -> load_phase (g l) <> Finished ->
     load_phase l <> Finished /\ promise (g l) = promise l) ->
  memo_sound w'.
Proof.
  intros [I1 I2] Hmemo Hloads Hpend Hphase. split; intros q l'; rewrite Hloads, ?Hmemo.
  - destruct (decide (p = q)) as [<-|Hne].
    + rewrite list_lookup_alter_eq.
      destruct (loads w !! p) as [l|] eqn:E; [|discriminate].
      intros [= <-] Hp. eapply I1; eauto.
    + rewrite list_lookup_alter_ne by assumption. apply I1.
  - destruct (decide (p = q)) as [<-|Hne].
    + rewrite list_lookup_alter_eq.
      destruct (loads w !! p) as [l|] eqn:E; [|discriminate].
      intros [= <-] Hph. destruct (Hphase l eq_refl Hph) as [Hold ->]. eapply I2; eauto.
    + rewrite list_lookup_alter_ne by assumption. apply I2.
Qed.

Lemma settle_load_not_pending o l :
  is_pending o = false -> promise (settle_load o l) = Pending -> False.
Proof.
  unfold settle_load. intros Ho. destruct (promise l) eqn:E; simpl; try congruence.
  intros ->. discriminate.
Qed.

Lemma loads_finish_settle p o w :
  loads (settle p o (set_phase p Finished w)) =
  alter (fun l => settle_load o (phase_load Finished l)) p (loads w).
Proof. unfold settle, set_phase. simpl. now rewrite list_alter_alter_eq. Qed.

Lemma load_phase_settle o l : load_phase (settle_load o l) = load_phase l.
Proof. unfold settle_load. destruct (promise l); reflexivity. Qed.

(** A handler that finishes the script and settles its promise. *)
Lemma memo_sound_finish_settle p o w w' :
  memo_sound w -> is_pending o = false ->
  loadPromise w' = loadPromise w ->
  loads w' = loads (settle p o (set_phase p Finished w)) ->
  memo_sound w'.
Proof.
  intros Hs Ho Hmemo Hloads. rewrite loads_finish_settle in Hloads.
  eapply memo_sound_alter; eauto.
  - intros l _ Hp. exfalso. eapply settle_load_not_pending; eauto.
  - intros l _ Hph. cbv beta in Hph. rewrite load_phase_settle in Hph. now simpl in Hph.
Qed.

Lemma phase_of_Some p w ph :
  phase_of p w = Some ph -> exists l, loads w !! p = Some l /\ load_phase l = ph.
Proof.
  unfold phase_of. destruct (loads w !! p) as [l|]; [|discriminate].
  intros [= <-]. eauto.
Qed.

Lemma memo_sound_expose ex w : memo_sound w -> memo_sound (expose ex w).
Proof. destruct ex; auto. Qed.

Lemma phase_of_expose ex p w : phase_of p (expose ex w) = phase_of p w.
Proof. destruct ex; reflexivity. Qed.

Lemma memo_sound_script_onload p w :
  memo_sound w -> phase_of p w = Some Fetching -> memo_sound (script_onload p w).
Proof.
  intros Hs Hph. unfold script_onload.
  destruct (pdfjsLib w) as [lib|]; [destruct (GlobalWorkerOptions lib)|].
  - eapply memo_sound_finish_settle; eauto; reflexivity.
  - eapply (memo_sound_alter (phase_load Finished)); eauto; reflexivity.
  - eapply (memo_sound_alter (phase_load Importing)); eauto; try reflexivity.
    intros l Hl _. apply phase_of_Some in Hph as (l0 & Hl0 & Hf).
    rewrite Hl in Hl0. injection Hl0 as <-. rewrite Hf. split; [discriminate|reflexivity].
Qed.

Lemma memo_sound_import_then p lib w :
  memo_sound w -> memo_sound (import_then env p lib w).
Proof.
  intros Hs. unfold import_then.
  destruct (GlobalWorkerOptions lib); eapply memo_sound_finish_settle; eauto; reflexivity.
Qed.

Lemma memo_sound_import_catch p e w :
  memo_sound w -> memo_sound (import_catch p e w).
Proof.
  intros Hs. unfold import_catch. eapply memo_sound_finish_settle; eauto; reflexivity.
Qed.

(** A script that is still fetching is the memoised one. *)
Lemma fetching_is_memoised p w :
  memo_sound w -> phase_of p w = Some Fetching -> loadPromise w = Some p.
Proof.
  intros [I1 I2] Hph. apply phase_of_Some in Hph as (l & Hl & Hf).
  eapply I1; eauto. eapply I2; eauto. rewrite Hf. discriminate.
Qed.

Lemma loads_script_onerror p w :
  loads (script_onerror p w) =
  alter (fun l => settle_load (Rejected (ErrorObj "Failed to load PDF.js from CDN"))
                    (phase_load Finished l)) p (loads w).
Proof. unfold script_onerror, settle, set_phase. simpl. now rewrite list_alter_alter_eq. Qed.

Lemma memo_sound_script_onerror p w :
  memo_sound w -> phase_of p w = Some Fetching -> memo_sound (script_onerror p w).
Proof.
  intros Hs Hph. pose proof (fetching_is_memoised p w Hs Hph) as Hmemo.
  destruct Hs as [I1 I2].
  split; intros q l'; rewrite loads_script_onerror.
  - destruct (decide (p = q)) as [<-|Hne].
    + rewrite list_lookup_alter_eq.
      destruct (loads w !! p) as [l|]; [|discriminate].
      intros [= <-] Hp. exfalso. eapply settle_load_not_pending; eauto. reflexivity.
    + rewrite list_lookup_alter_ne by assumption.
      intros Hl Hp. specialize (I1 q l' Hl Hp). congruence.
  - destruct (decide (p = q)) as [<-|Hne].
    + rewrite list_lookup_alter_eq.
      destruct (loads w !! p) as [l|]; [|discriminate].
      intros [= <-] Hf. cbv beta in Hf. rewrite load_phase_settle in Hf. now simpl in Hf.
    + rewrite list_lookup_alter_ne by assumption. apply I2.
Qed.

Lemma memo_sound_enter w :
  memo_sound w -> memo_sound (snd (loadPdfJsFromCDN_enter w)).
Proof.
  intros [I1 I2]. unfold loadPdfJsFromCDN_enter.
  destruct (pdfjsLib w); [now split|].
  destruct (loadPromise w) eqn:Hmemo; [split; [now rewrite <- Hmemo in I1 | exact I2]|].
  split; intros q l'; simpl; intros Hl.
  - destruct (decide (q < length (loads w))) as [Hlt|Hge].
    + rewrite lookup_app_l in Hl by assumption.
      intros Hp. specialize (I1 q l' Hl Hp). congruence.
    + intros _. apply lookup_lt_Some in Hl. rewrite length_app in Hl. simpl in Hl.
      f_equal. lia.
  - destruct (decide (q < length (loads w))) as [Hlt|Hge].
    + rewrite lookup_app_l in Hl by assumption. eauto.
    + rewrite lookup_app_r in Hl by lia.
      destruct (q - length (loads w)) as [|n]; simpl in Hl; [|discriminate].
      injection Hl as <-. reflexivity.
Qed.

Lemma memo_sound_fire ev w w' :
  memo_sound w -> fire env ev w = Some w' -> memo_sound w'.
Proof.
  intros Hs. destruct ev as [|p ex|p|p lib|p e]; simpl.
  - intros [= <-]. now apply memo_sound_enter.
  - destruct (phase_of p w) as [[| |]|] eqn:Hph; try discriminate. intros [= <-].
    apply memo_sound_script_onload; [now apply memo_sound_expose|].
    now rewrite phase_of_expose.
  - destruct (phase_of p w) as [[| |]|] eqn:Hph; try discriminate. intros [= <-].
    now apply memo_sound_script_onerror.
  - destruct (phase_of p w) as [[| |]|] eqn:Hph; try discriminate. intros [= <-].
    now apply memo_sound_import_then.
  - destruct (phase_of p w) as [[| |]|] eqn:Hph; try discriminate. intros [= <-].
    now apply memo_sound_import_catch.
Qed.

Lemma memo_sound_run evs w w' :
  memo_sound w -> run env evs w = Some w' -> memo_sound w'.
Proof.
  revert w. induction evs as [|ev evs IH]; intros w Hs; simpl.
  - now intros [= <-].
  - destruct (fire env ev w) as [w1|] eqn:Hf; [|discriminate].
    apply IH. eapply memo_sound_fire; eauto.
Qed.

Lemma memo_sound_reachable w : reachable env w -> memo_sound w.
Proof. intros [evs Hrun]. eapply memo_sound_run; eauto using memo_sound_initial. Qed.

End SingleFlight.

Section SingleFlightRuns.
Variable env : Env.

Local Open Scope nat_scope.

Lemma in_flight_memoised w p :
  memo_sound w -> elem_of p (in_flight w) -> loadPromise w = Some p.
Proof.
  intros [I1 _]. unfold in_flight. rewrite list_elem_of_filter, elem_of_seq.
  intros [Hp [_ Hlt]]. unfold promise_of in Hp.
  destruct (loads w !! p) as [l|] eqn:Hl.
  - apply (I1 p l Hl). destruct (promise l); simpl in Hp; congruence.
  - apply lookup_ge_None in Hl. simpl in Hlt. lia.
Qed.

Lemma NoDup_all_equal_short {A} (l : list A) :
  NoDup l -> (forall x y, elem_of x l -> elem_of y l -> x = y) -> length l <= 1.
Proof.
  destruct l as [|a [|b l]]; simpl; intros Hnd Heq; try lia.
  exfalso. apply NoDup_cons in Hnd as [Hnotin _].
  apply Hnotin. rewrite (Heq a b); [left | left | right; left].
Qed.

Lemma in_flight_at_most_one w : memo_sound w -> length (in_flight w) <= 1.
Proof.
  intros Hs. apply NoDup_all_equal_short.
  - unfold in_flight. apply NoDup_filter, NoDup_seq.
  - intros x y Hx Hy.
    pose proof (in_flight_memoised w x Hs Hx). pose proof (in_flight_memoised w y Hs Hy).
    congruence.
Qed.

Lemma enter_while_in_flight w p :
  memo_sound w -> pdfjsLib w = None -> elem_of p (in_flight w) ->
  loadPdfJsFromCDN_enter w = (InFlight p, w).
Proof.
  intros Hs Hlib Hp. unfold loadPdfJsFromCDN_enter.
  now rewrite Hlib, (in_flight_memoised w p Hs Hp).
Qed.

(** Handlers keep the script elements. *)
Lemma fmap_src_alter g p (l : list Load) :
  (forall x, script_src (g x) = script_src x) ->
  script_src <$> alter g p l = script_src <$> l.
Proof.
  intros Hg. revert p. induction l as [|x l IH]; intros [|p]; simpl; try reflexivity.
  - now rewrite Hg.
  - f_equal. apply IH.
Qed.

Lemma script_src_settle o l : script_src (settle_load o l) = script_src l.
Proof. unfold settle_load. destruct (promise l); reflexivity. Qed.

(** Settling a promise or moving a script to another phase keeps the script
    elements. *)
Ltac same_scripts :=
  unfold injected, script_onload, script_onerror, import_then, import_catch,
    expose, settle, set_phase;
  repeat match goal with
         | |- context [match ?x with _ => _ end] => destruct x
         end;
  simpl;
  rewrite ?fmap_src_alter
    by (intros; rewrite ?script_src_settle; reflexivity);
  auto.

(** An event other than a script error leaves the memo alone, unless it is
    the call that fills an empty memo; only that call injects a script. *)
Lemma fire_without_error ev w w' :
  is_script_error ev = false -> fire env ev w = Some w' ->
  (loadPromise w' = loadPromise w /\ injected w' = injected w) \/
  (ev = EvCall /\ pdfjsLib w = None /\ loadPromise w = None /\
   loadPromise w' = Some (length (loads w)) /\
   injected w' = injected w ++ [cdn_script_url]).
Proof.
  destruct ev as [|p ex|p|p lib|p e]; simpl; try discriminate; intros _.
  - intros [= <-]. unfold loadPdfJsFromCDN_enter.
    destruct (pdfjsLib w) eqn:Hlib; [now left|].
    destruct (loadPromise w) eqn:Hmemo; [left; simpl; auto|].
    right. unfold injected. simpl. rewrite fmap_app. auto.
  - destruct (phase_of p w) as [[| |]|]; try discriminate. intros [= <-]. left.
    split; same_scripts.
  - destruct (phase_of p w) as [[| |]|]; try discriminate. intros [= <-]. left.
    split; same_scripts.
  - destruct (phase_of p w) as [[| |]|]; try discriminate. intros [= <-]. left.
    split; same_scripts.
Qed.

(** With the memo filled, a run without script errors injects nothing and
    hands every caller the memoised promise. *)
Lemma run_with_memo evs w w' p :
  existsb is_script_error evs = false ->
  loadPromise w = Some p -> run env evs w = Some w' ->
  loadPromise w' = Some p /\ injected w' = injected w /\
  (forall q, elem_of (InFlight q) (handed env evs w) -> q = p).
Proof.
  revert w. induction evs as [|ev evs IH]; intros w Hne Hmemo; simpl.
  - intros [= <-]. repeat split; auto. intros q Hq. inversion Hq.
  - simpl in Hne. apply orb_false_elim in Hne as [Hev Hevs].
    destruct (fire env ev w) as [w1|] eqn:Hf; [|discriminate]. intros Hrun.
    destruct (fire_without_error ev w w1 Hev Hf) as [[Hm Hi]|(_ & _ & Hnone & _)];
      [|congruence].
    rewrite Hmemo in Hm.
    destruct (IH w1 Hevs Hm Hrun) as (Hm' & Hi' & Hh).
    repeat split; [assumption | congruence |].
    intros q Hq. destruct ev; try (now apply Hh).
    apply elem_of_cons in Hq as [Hq|Hq]; [|now apply Hh].
    unfold loadPdfJsFromCDN_enter in Hq. rewrite Hmemo in Hq.
    destruct (pdfjsLib w); simpl in Hq; congruence.
Qed.

(** From any loader state, a run without script errors injects at most one
    script element and hands out at most one promise. *)
Lemma run_without_error evs w w' :
  existsb is_script_error evs = false -> run env evs w = Some w' ->
  (exists extra, injected w' = injected w ++ extra /\ length extra <= 1) /\
  (forall p q, elem_of (InFlight p) (handed env evs w) ->
               elem_of (InFlight q) (handed env evs w) -> p = q).
Proof.
  revert w. induction evs as [|ev evs IH]; intros w Hne; simpl.
  - intros [= <-]. split; [exists []; rewrite app_nil_r; auto|].
    intros p q Hp. inversion Hp.
  - simpl in Hne. apply orb_false_elim in Hne as [Hev Hevs].
    destruct (fire env ev w) as [w1|] eqn:Hf; [|discriminate]. intros Hrun.
    destruct (fire_without_error ev w w1 Hev Hf)
      as [[Hm Hi]|(-> & Hlib & Hnone & Hfilled & Hi)].
    + destruct (IH w1 Hevs Hrun) as ((extra & He & Hlen) & Hsame).
      split; [exists extra; split; [congruence | assumption]|].
      destruct ev; try exact Hsame.
      intros p q Hp Hq.
      unfold loadPdfJsFromCDN_enter in Hp, Hq, Hf. simpl in Hf.
      unfold loadPdfJsFromCDN_enter in Hf.
      destruct (pdfjsLib w) as [lib|].
      * simpl in *. apply elem_of_cons in Hp as [Hp|Hp]; [discriminate|].
        apply elem_of_cons in Hq as [Hq|Hq]; [discriminate|]. now apply Hsame.
      * destruct (loadPromise w) as [p0|] eqn:Hmemo.
        -- simpl in Hf. injection Hf as <-.
           destruct (run_with_memo evs w w' p0 Hevs Hmemo Hrun) as (_ & _ & Hh).
           simpl in Hp, Hq.
           assert (Hp0 : forall r, elem_of (InFlight r) (InFlight p0 :: handed env evs w) ->
                                   r = p0).
           { intros r Hr. apply elem_of_cons in Hr as [Hr|Hr]; [congruence | now apply Hh]. }
           rewrite (Hp0 p Hp), (Hp0 q Hq). reflexivity.
        -- simpl in Hf. injection Hf as <-. simpl in Hm. discriminate.
    + destruct (run_with_memo evs w1 w' _ Hevs Hfilled Hrun) as (_ & Hi' & Hh).
      split; [exists [cdn_script_url]; split; [congruence | simpl; lia]|].
      intros p q Hp Hq. unfold loadPdfJsFromCDN_enter in Hp, Hq.
      rewrite Hlib, Hnone in Hp, Hq. simpl in Hp, Hq.
      assert (Hp0 : forall r,
                 elem_of (InFlight r) (InFlight (length (loads w)) :: handed env evs w1) ->
                 r = length (loads w)).
      { intros r Hr. apply elem_of_cons in Hr as [Hr|Hr]; [congruence | now apply Hh]. }
      rewrite (Hp0 p Hp), (Hp0 q Hq). reflexivity.
Qed.

End SingleFlightRuns.

(** C9, as the code has it.  In every loader state that can arise, at most
    one remote load is pending.  With no engine cached, a caller that enters
    [loadPdfJsFromCDN] while a load is pending is handed that very promise and
    the loader state, script elements included, is left as it was.  A run in
    which no script element fires [error] injects at most one script element
    and hands all its callers the same promise; two calls in a row on a fresh
    page share promise 0 and one script element. *)
Theorem single_flight_while_pending (env : Env) :
  (forall w, reachable env w -> (length (in_flight w) <= 1)%nat) /\
  (forall w p,
     reachable env w -> pdfjsLib w = None -> elem_of p (in_flight w) ->
     loadPdfJsFromCDN_enter w = (InFlight p, w)) /\
  (forall evs w w',
     existsb is_script_error evs = false -> run env evs w = Some w' ->
     (exists extra, injected w' = injected w ++ extra /\ (length extra <= 1)%nat) /\
     (forall p q, elem_of (InFlight p) (handed env evs w) ->
                  elem_of (InFlight q) (handed env evs w) -> p = q)) /\
  handed env [EvCall; EvCall] initial = [InFlight 0; InFlight 0] /\
  (injected <$> run env [EvCall; EvCall] initial) = Some [cdn_script_url].
Proof.
  split; [|split; [|split; [|split]]].
  - intros w Hr. apply in_flight_at_most_one. now apply (memo_sound_reachable env).
  - intros w p Hr. apply enter_while_in_flight. now apply (memo_sound_reachable env).
  - apply run_without_error.
  - reflexivity.
  - reflexivity.
Qed.

Lemma single_flight_while_pending_witness :
  loadPdfJsFromCDN_enter (snd (loadPdfJsFromCDN_enter initial)) =
  (InFlight 0, snd (loadPdfJsFromCDN_enter initial)).
Proof.
  destruct (single_flight_while_pending Sample.healthy) as (_ & Hsame & _).
  apply Hsame.
  - exists [EvCall]. reflexivity.
  - reflexivity.
  - vm_compute. left.
Defined.

(** C9, as stated, fails after a script error: [onerror] clears the memo
    (line 58) and leaves the failed element in [document.head], so the next
    caller, with the engine still not cached, is handed a new promise and a
    second script element with the same [src] is injected. *)
Lemma retry_after_script_error_injects_again :
  (injected <$> run Sample.offline [EvCall; EvScriptError 0; EvCall] initial) =
    Some [cdn_script_url; cdn_script_url] /\
  (pdfjsLib <$> run Sample.offline [EvCall; EvScriptError 0; EvCall] initial) = Some None /\
  handed Sample.offline [EvCall; EvScriptError 0; EvCall] initial =
    [InFlight 0; InFlight 1] /\
  ~ (forall evs w,
       run Sample.offline evs initial = Some w -> pdfjsLib w = None ->
       (length (injected w) <= 1)%nat).
Proof.
  repeat split.
  intros H.
  specialize (H [EvCall; EvScriptError 0; EvCall] _ eq_refl eq_refl).
  vm_compute in H. lia.
Qed.

(** * Further properties *)

(** ** Validation of a file object *)

(** X1. For a file object the checks of lines 122-132 run in source order
    and fail fast: a wrong MIME type is reported with the type it had,
    whatever the size; a PDF-typed empty file is reported as empty.  A
    rejected file costs nothing: no call is made and the loader state is
    untouched.  Validation accepts exactly the PDF-typed files of one byte up
    to [max_size] bytes. *)
Theorem file_object_validation (env : Env) (f : File) (w : World) :
  (type f <> pdf_mime ->
   convertPdfToImage env (Some f) w =
     (Fulfilled (mkResult "" None
        (Some ("Invalid file type: " +:+ type f +:+ ". Expected: application/pdf"))), w)) /\
  (type f = pdf_mime -> size f = 0 ->
   convertPdfToImage env (Some f) w =
     (Fulfilled (mkResult "" None (Some "File is empty")), w)) /\
  (validateFile env (Some f) w = (Fulfilled f, w) <->
   type f = pdf_mime /\ 0 < size f <= max_size).
Proof.
  split; [|split].
  - intros Ht. rewrite convertPdfToImage_cases, conversionSteps_cases, validateFile_checks.
    destruct (String.eqb_spec (type f) pdf_mime); [contradiction|reflexivity].
  - intros Ht Hs. rewrite convertPdfToImage_cases, conversionSteps_cases, validateFile_checks.
    now rewrite Ht, Hs.
  - split.
    + intros Hv. apply validateFile_fulfilled in Hv as (_ & Ht & Hz & Hmax).
      split; [assumption | lia].
    + intros (Ht & Hz & Hmax). apply validateFile_accepts; [assumption | lia | assumption].
Qed.

Lemma file_object_validation_witness :
  convertPdfToImage Sample.offline (Some (mkFile "notes.txt" "text/plain" 0)) initial =
    (Fulfilled (mkResult "" None
       (Some "Invalid file type: text/plain. Expected: application/pdf")), initial) /\
  convertPdfToImage Sample.offline (Some (mkFile "blank.pdf" pdf_mime 0)) initial =
    (Fulfilled (mkResult "" None (Some "File is empty")), initial).
Proof.
  split.
  - apply (file_object_validation Sample.offline (mkFile "notes.txt" "text/plain" 0) initial).
    discriminate.
  - apply (file_object_validation Sample.offline (mkFile "blank.pdf" pdf_mime 0) initial);
      reflexivity.
Defined.

(** ** The output name, for every name *)

Lemma replace_is_prefix s :
  exists t, s = Name.replace_pdf_suffix s +:+ t /\ (t = "" \/ Name.is_pdf_ext t).
Proof.
  induction s as [|c s (t & Hs & Ht)].
  - exists "". auto.
  - cbn [Name.replace_pdf_suffix].
    destruct (Name.match_here (String c s)) eqn:E.
    + exists (String c s). auto.
    + exists t. split; [|exact Ht].
      change (String c s = String c (Name.replace_pdf_suffix s +:+ t)).
      now rewrite <- Hs.
Qed.

Lemma append_empty_r (s : string) : s +:+ "" = s.
Proof.
  induction s as [|c s IH]; [reflexivity|].
  change (String c (s +:+ "") = String c s). now rewrite IH.
Qed.

(** X2. Whatever the source name, the output name is built from a prefix of
    it: the name is [stem ++ t] with [stem] what [replace] returns and [t]
    either empty or a [.pdf] extension in some letter case; so at most the
    last four characters are dropped, and the output name has the length of
    the source name when an extension was dropped and four more otherwise. *)
Theorem png_name_decomposition (file_name : string) :
  exists t,
    file_name = Name.replace_pdf_suffix file_name +:+ t /\
    Name.png_name file_name = Name.replace_pdf_suffix file_name +:+ ".png" /\
    ((t = "" /\ ~ Name.has_pdf_suffix file_name /\
      String.length (Name.png_name file_name) = (String.length file_name + 4)%nat) \/
     (Name.is_pdf_ext t /\ Name.has_pdf_suffix file_name /\
      String.length (Name.png_name file_name) = String.length file_name)).
Proof.
  destruct (replace_is_prefix file_name) as (t & Hs & [->|Ht]).
  - exists "". split; [exact Hs|]. split; [reflexivity|]. left.
    assert (Hsame : Name.replace_pdf_suffix file_name = file_name).
    { rewrite append_empty_r in Hs. now symmetry. }
    split; [reflexivity|]. split.
    + intros (base & ext & Hname & Hext).
      rewrite Hname, NameFacts.replace_strips_suffix in Hsame by assumption.
      apply (f_equal String.length) in Hsame.
      rewrite NameFacts.length_append, (NameFacts.match_here_length ext Hext) in Hsame. lia.
    + unfold Name.png_name. rewrite Hsame, NameFacts.length_append. reflexivity.
  - exists t. split; [exact Hs|]. split; [reflexivity|]. right.
    split; [exact Ht|]. split; [now exists (Name.replace_pdf_suffix file_name), t|].
    unfold Name.png_name. rewrite Hs at 2.
    rewrite !NameFacts.length_append, (NameFacts.match_here_length t Ht). reflexivity.
Qed.

(** ** The calls of a conversion *)

Section TraceFacts.
Variable env : Env.

Lemma calls_since_app w w' made :
  calls w' = calls w ++ made -> calls_since w w' = made.
Proof. intros H. unfold calls_since. rewrite H. apply drop_app_length. Qed.

Lemma encode_calls_exact f page canvas w :
  calls (snd (encode env f page canvas w)) =
  calls w ++ encode_call ::
    match toBlob env page canvas with
    | Fulfilled (Some blob) => if 0 <? blob_size blob then package_calls f else []
    | _ => []
    end.
Proof.
  unfold encode, bind, await, perform, ret.
  destruct (toBlob env page canvas) as [[blob|]|e|]; try reflexivity.
  destruct (0 <? blob_size blob); simpl; [|reflexivity].
  now rewrite <- !app_assoc.
Qed.

(** The calls of [renderFirstPage]: the loader's imports, then the steps of
    the source in their order, up to the first one that fails.  A fill is
    made only for the viewport the engine answered for page 1. *)
Lemma renderFirstPage_trace f w o w' :
  renderFirstPage env f w = (o, w') ->
  exists remote vp made,
    (remote = [] \/ remote = [CImport cdn_script_url]) /\
    calls w' = calls w ++ local_imports env ++ remote ++ made /\
    prefix made (render_calls env vp) /\
    (forall pc, o = Fulfilled pc -> made = render_calls env vp) /\
    (forall a b, In (CFillRect a b) made -> first_page_viewport env f w vp).
Proof.
  pose (vp0 := mkViewport 0 0).
  intros H. unfold renderFirstPage in H. unfold bind at 1 in H.
  destruct (loadPdfJs_calls env w) as (remote & Hc & Hremote).
  assert (Hstop : forall vp made w1,
             calls w1 = calls w ++ local_imports env ++ remote ->
             prefix made (render_calls env vp) ->
             (forall pc, o = Fulfilled pc -> made = render_calls env vp) ->
             (forall a b, In (CFillRect a b) made -> first_page_viewport env f w vp) ->
             calls w' = calls w1 ++ made ->
             exists remote vp made,
               (remote = [] \/ remote = [CImport cdn_script_url]) /\
               calls w' = calls w ++ local_imports env ++ remote ++ made /\
               prefix made (render_calls env vp) /\
               (forall pc, o = Fulfilled pc -> made = render_calls env vp) /\
               (forall a b, In (CFillRect a b) made -> first_page_viewport env f w vp)).
  { intros vp made w1 Hc1 Hp Hf Hv Hw. exists remote, vp, made.
    rewrite Hw, Hc1, <- !app_assoc. auto. }
  assert (Hnofill : forall vp made,
             Forall (fun c => match c with CFillRect _ _ => False | _ => True end) made ->
             forall a b, In (CFillRect a b) made -> first_page_viewport env f w vp).
  { intros vp made Hall a b Hin. rewrite Forall_forall in Hall.
    apply list_elem_of_In in Hin. destruct (Hall _ Hin). }
  destruct (loadPdfJs env w) as [[lib|e|] w1] eqn:Hload; simpl in Hc;
    [| injection H as <- <-; apply (Hstop vp0 [] w1 Hc);
       [apply prefix_nil | discriminate | intros a b [] | now rewrite app_nil_r] ..].
  unfold bind, await, perform, throw, ret in H.
  destruct (arrayBuffer env f) as [buf|e|] eqn:Hbuf; simpl in H;
    [| injection H as <- <-; apply (Hstop vp0 [CArrayBuffer] w1 Hc);
       [eexists; reflexivity | discriminate
        | apply Hnofill; repeat constructor | reflexivity] ..].
  destruct (getDocument env lib buf) as [pdf|e|] eqn:Hdoc; simpl in H;
    [| injection H as <- <-; apply (Hstop vp0 [CArrayBuffer; CGetDocument] w1 Hc);
       [eexists; reflexivity | discriminate
        | apply Hnofill; repeat constructor | now rewrite <- !app_assoc] ..].
  destruct (numPages pdf =? 0); simpl in H;
    [injection H as <- <-; apply (Hstop vp0 [CArrayBuffer; CGetDocument] w1 Hc);
     [eexists; reflexivity | discriminate
      | apply Hnofill; repeat constructor | now rewrite <- !app_assoc] |].
  destruct (getPage env pdf 1) as [page|e|] eqn:Hpage; simpl in H;
    [| injection H as <- <-;
       apply (Hstop vp0 [CArrayBuffer; CGetDocument; CGetPage 1] w1 Hc);
       [eexists; reflexivity | discriminate
        | apply Hnofill; repeat constructor | now rewrite <- !app_assoc] ..].
  destruct (getViewport env page (2 # 1)) as [vp|e|] eqn:Hvp; simpl in H;
    [| injection H as <- <-;
       apply (Hstop vp0 [CArrayBuffer; CGetDocument; CGetPage 1; CGetViewport (2 # 1)]
                w1 Hc);
       [eexists; reflexivity | discriminate
        | apply Hnofill; repeat constructor | now rewrite <- !app_assoc] ..].
  assert (Hprov : first_page_viewport env f w vp).
  { exists lib, w1, buf, pdf, page. auto. }
  destruct (context2d env); simpl in H;
    [| injection H as <- <-;
       apply (Hstop vp [CArrayBuffer; CGetDocument; CGetPage 1; CGetViewport (2 # 1);
                        CCreateCanvas; CGetContext] w1 Hc);
       [eexists; reflexivity | discriminate | auto | now rewrite <- !app_assoc]].
  destruct (render env page vp) as [[]|e|]; simpl in H; injection H as <- <-;
    apply (Hstop vp (render_calls env vp) w1 Hc);
    try reflexivity; try (intros; reflexivity); auto; now rewrite <- !app_assoc.
Qed.

(** The calls of a whole conversion of a file object, with its outcome: a
    failure stops somewhere in the pipeline, at the latest after [toBlob];
    only a packaged image goes through all of it. *)
Lemma convertPdfToImage_trace f w :
  exists remote vp made,
    (remote = [] \/ remote = [CImport cdn_script_url]) /\
    calls (snd (convertPdfToImage env (Some f) w)) = calls w ++ made /\
    (forall a b, In (CFillRect a b) made -> first_page_viewport env f w vp) /\
    ((prefix made (local_imports env ++ remote ++ render_calls env vp ++ [encode_call]) /\
      (forall r, fst (convertPdfToImage env (Some f) w) = Fulfilled r ->
                 exists msg, r = failure msg)) \/
     (made = local_imports env ++ remote ++ render_calls env vp
             ++ encode_call :: package_calls f /\
      exists r, fst (convertPdfToImage env (Some f) w) = Fulfilled r /\ has_image r)).
Proof.
  pose (vp0 := mkViewport 0 0).
  rewrite convertPdfToImage_cases, conversionSteps_cases.
  destruct (validateFile env (Some f) w) as [[g|e|] w0] eqn:Hv;
    pose proof (validateFile_world env _ _ _ _ Hv) as ->.
  - apply validateFile_fulfilled in Hv as (Hg & _). injection Hg as <-.
    destruct (renderFirstPage env f w) as [o w2] eqn:Hr.
    apply renderFirstPage_trace in Hr as (remote & vp & made & Hrem & Hc & Hp & Hf & Hfill).
    exists remote, vp.
    assert (Hfill' : forall l,
               (forall x, In x l -> x = encode_call \/ In x (package_calls f)) ->
               forall a b,
               In (CFillRect a b) (local_imports env ++ remote ++ made ++ l) ->
               first_page_viewport env f w vp).
    { intros l Hl a b Hin.
      apply in_app_or in Hin as [Hin|Hin].
      { unfold local_imports in Hin. destruct (importStandard env); simpl in Hin;
          intuition discriminate. }
      apply in_app_or in Hin as [Hin|Hin].
      { destruct Hrem as [-> | ->]; simpl in Hin; intuition discriminate. }
      apply in_app_or in Hin as [Hin|Hin]; [eauto|].
      destruct (Hl _ Hin) as [Heq|Hpk]; [discriminate|].
      simpl in Hpk. intuition discriminate. }
    destruct o as [[page canvas]|e|].
    + rewrite (Hf _ eq_refl) in Hc, Hfill'.
      rewrite encode_calls_exact, encode_outcome, Hc.
      destruct (toBlob env page canvas) as [[blob|]|e|].
      * destruct (N.ltb_spec 0 (blob_size blob)).
        -- eexists. split; [exact Hrem|]. split; [now rewrite <- !app_assoc|].
           split; [apply (Hfill' (encode_call :: package_calls f));
                   intros x [<-|Hx]; [now left | now right]|].
           right. split; [reflexivity|].
           eexists. split; [reflexivity|]. split; discriminate.
        -- eexists. split; [exact Hrem|]. split; [now rewrite <- !app_assoc|].
           split; [apply (Hfill' [encode_call]); intros x [<-|[]]; now left|].
           left. split; [reflexivity|]. intros r [= <-]. eauto.
      * eexists. split; [exact Hrem|]. split; [now rewrite <- !app_assoc|].
        split; [apply (Hfill' [encode_call]); intros x [<-|[]]; now left|].
        left. split; [reflexivity|]. intros r [= <-]. eauto.
      * eexists. split; [exact Hrem|]. split; [now rewrite <- !app_assoc|].
        split; [apply (Hfill' [encode_call]); intros x [<-|[]]; now left|].
        left. split; [reflexivity|]. discriminate.
      * eexists. split; [exact Hrem|]. split; [now rewrite <- !app_assoc|].
        split; [apply (Hfill' [encode_call]); intros x [<-|[]]; now left|].
        left. split; [reflexivity|]. discriminate.
    + exists (local_imports env ++ remote ++ made). split; [exact Hrem|].
      split; [exact Hc|].
      split; [intros a b Hin; apply (Hfill' [] (fun x (Hx : In x []) => match Hx with end) a b);
              now rewrite app_nil_r|].
      left. split.
      * apply prefix_app, prefix_app, prefix_app_r, Hp.
      * intros r [= <-]. eauto.
    + exists (local_imports env ++ remote ++ made). split; [exact Hrem|].
      split; [exact Hc|].
      split; [intros a b Hin; apply (Hfill' [] (fun x (Hx : In x []) => match Hx with end) a b);
              now rewrite app_nil_r|].
      left. split.
      * apply prefix_app, prefix_app, prefix_app_r, Hp.
      * discriminate.
  - exists [], vp0, []. split; [now left|]. split; [now rewrite app_nil_r|].
    split; [intros a b []|]. left. split; [apply prefix_nil|].
    intros r [= <-]. eauto.
  - exists [], vp0, []. split; [now left|]. split; [now rewrite app_nil_r|].
    split; [intros a b []|]. left. split; [apply prefix_nil|].
    discriminate.
Qed.

End TraceFacts.

(** X3. When the canvas yields no 2D context the conversion resolves to the
    error [Failed to get 2D context from canvas]; after the loader's imports
    it has read the bytes, parsed them, fetched the first page and its
    viewport and created the canvas, and it stops there: nothing is painted,
    rendered or encoded. *)
Theorem missing_context_is_an_error
    (env : Env) (f : File) (w w1 : World) (lib : Lib) (buf : ArrayBuffer)
    (pdf : PdfDoc) (page : Page) (vp : Viewport) :
  type f = pdf_mime -> size f <> 0 -> size f <= max_size ->
  loadPdfJs env w = (Fulfilled lib, w1) ->
  arrayBuffer env f = Fulfilled buf ->
  getDocument env lib buf = Fulfilled pdf ->
  numPages pdf <> 0 ->
  getPage env pdf 1 = Fulfilled page ->
  getViewport env page (2 # 1) = Fulfilled vp ->
  context2d env = false ->
  fst (convertPdfToImage env (Some f) w) =
    Fulfilled (mkResult "" None (Some "Failed to get 2D context from canvas")) /\
  exists remote,
    (remote = [] \/ remote = [CImport cdn_script_url]) /\
    calls_since w (snd (convertPdfToImage env (Some f) w)) =
      local_imports env ++ remote ++
      [CArrayBuffer; CGetDocument; CGetPage 1; CGetViewport (2 # 1);
       CCreateCanvas; CGetContext].
Proof.
  intros Ht Hz Hmax Hl Hb Hd Hn Hp Hv Hc.
  destruct (loadPdfJs_calls env w) as (remote & Hlc & Hremote).
  rewrite Hl in Hlc. simpl in Hlc.
  rewrite convertPdfToImage_cases, conversionSteps_cases.
  rewrite (validateFile_accepts env f w Ht Hz Hmax).
  unfold renderFirstPage. rewrite (bind_fulfilled _ _ _ _ _ Hl).
  unfold bind, await, perform, throw, ret. rewrite Hb. cbn [calls set_calls].
  rewrite Hd. apply N.eqb_neq in Hn. rewrite Hn, Hp, Hv, Hc. cbn.
  split; [reflexivity|]. exists remote. split; [exact Hremote|].
  apply calls_since_app. rewrite Hlc. now rewrite <- !app_assoc.
Qed.

Lemma missing_context_is_an_error_witness :
  fst (convertPdfToImage (Sample.with_context false Sample.healthy)
         (Some Sample.resume) initial) =
    Fulfilled (mkResult "" None (Some "Failed to get 2D context from canvas")) /\
  calls_since initial
    (snd (convertPdfToImage (Sample.with_context false Sample.healthy)
            (Some Sample.resume) initial)) =
    [CImport "pdfjs-dist"; CArrayBuffer; CGetDocument; CGetPage 1; CGetViewport (2 # 1);
     CCreateCanvas; CGetContext].
Proof.
  destruct (missing_context_is_an_error (Sample.with_context false Sample.healthy)
              Sample.resume initial
              (snd (loadPdfJs Sample.healthy initial))
              (setWorkerSrc local_worker_url Sample.engine)
              (mkArrayBuffer 181004) (mkPdfDoc 0 1) (mkPage 0 1) Sample.letter)
    as (Hres & remote & _ & _);
    try reflexivity; try discriminate.
  split; [exact Hres | reflexivity].
Defined.

(** Imports are the only calls of the loader. *)
Lemma only_imports_in_loader_calls (env : Env) (remote : list call) (c : call) :
  remote = [] \/ remote = [CImport cdn_script_url] ->
  is_import c = false -> ~ In c (local_imports env ++ remote).
Proof.
  intros Hremote Hc Hin. apply in_app_or in Hin as [Hin|Hin].
  - unfold local_imports in Hin.
    destruct (importStandard env); simpl in Hin;
      repeat (destruct Hin as [<-|Hin]; try discriminate); contradiction.
  - destruct Hremote as [-> | ->]; simpl in Hin;
      repeat (destruct Hin as [<-|Hin]; try discriminate); contradiction.
Qed.

(** X4. The calls of any conversion of a file object, in any environment,
    are an initial part of one fixed sequence: the local imports, then (only
    when the [load] handler had to make it) the import of the CDN module, the
    byte read, the parse, page 1, its viewport at scale 2, the canvas, its
    context, the background fill, the render, the PNG encode at quality 0.95,
    the file and the object URL.  So the background is filled before the page
    is rendered, and no page other than the first is ever requested.  When a
    fill is made it covers the canvas, whose width and height are what the
    canvas kept of the width and height of the viewport that the engine
    answered for page 1 of the parsed file. *)
Theorem conversion_follows_the_pipeline (env : Env) (f : File) (w : World) :
  exists remote vp,
    (remote = [] \/ remote = [CImport cdn_script_url]) /\
    calls (snd (convertPdfToImage env (Some f) w)) =
      calls w ++ calls_since w (snd (convertPdfToImage env (Some f) w)) /\
    prefix (calls_since w (snd (convertPdfToImage env (Some f) w)))
      (local_imports env ++ remote ++ render_calls env vp
       ++ encode_call :: package_calls f) /\
    (forall a b,
       In (CFillRect a b) (calls_since w (snd (convertPdfToImage env (Some f) w))) ->
       first_page_viewport env f w vp /\
       a = canvasWidth env (vp_width vp) /\ b = canvasHeight env (vp_height vp)) /\
    (forall n, In (CGetPage n) (calls_since w (snd (convertPdfToImage env (Some f) w))) ->
               n = 1).
Proof.
  destruct (convertPdfToImage_trace env f w)
    as (remote & vp & made & Hremote & Hc & Hfill & Hcases).
  exists remote, vp. rewrite (calls_since_app _ _ _ Hc).
  assert (Hp : prefix made
                 (local_imports env ++ remote ++ render_calls env vp
                  ++ encode_call :: package_calls f)).
  { destruct Hcases as [[Hp _]|[-> _]]; [|reflexivity].
    destruct Hp as [k Hk]. exists (k ++ package_calls f).
    rewrite (app_assoc made), <- Hk, <- !app_assoc. reflexivity. }
  assert (Hin : forall c, is_import c = false -> In c made ->
                          In c (render_calls env vp ++ encode_call :: package_calls f)).
  { intros c Hc' Hin. destruct Hp as [k Hk].
    assert (Hall : In c ((local_imports env ++ remote)
                         ++ render_calls env vp ++ encode_call :: package_calls f)).
    { rewrite <- app_assoc, Hk. apply in_or_app. now left. }
    apply in_app_or in Hall as [Hall|Hall]; [|exact Hall].
    now destruct (only_imports_in_loader_calls env remote c Hremote Hc'). }
  split; [exact Hremote|]. split; [exact Hc|]. split; [exact Hp|]. split.
  - intros a b Hab. split; [eauto|].
    apply Hin in Hab; [|reflexivity].
    unfold render_calls, package_calls, encode_call in Hab. simpl in Hab.
    repeat (destruct Hab as [Hab|Hab]; try discriminate); [|contradiction].
    injection Hab as <- <-. auto.
  - intros n Hn. apply Hin in Hn; [|reflexivity].
    unfold render_calls, package_calls, encode_call in Hn. simpl in Hn.
    repeat (destruct Hn as [Hn|Hn]; try discriminate); [|contradiction].
    now injection Hn.
Qed.

Lemma conversion_follows_the_pipeline_witness :
  first_page_viewport (Sample.with_viewport Sample.a4 Sample.healthy) Sample.resume
    initial Sample.a4 /\
  In (CFillRect 1190 1683)
    (calls_since initial
       (snd (convertPdfToImage (Sample.with_viewport Sample.a4 Sample.healthy)
               (Some Sample.resume) initial))).
Proof.
  destruct (conversion_follows_the_pipeline
              (Sample.with_viewport Sample.a4 Sample.healthy) Sample.resume initial)
    as (remote & vp & _ & _ & _ & Hfill & _).
  assert (Hin : In (CFillRect 1190 1683)
                  (calls_since initial
                     (snd (convertPdfToImage (Sample.with_viewport Sample.a4 Sample.healthy)
                             (Some Sample.resume) initial)))).
  { vm_compute. do 7 right. now left. }
  split; [|exact Hin].
  destruct (Hfill _ _ Hin) as ((lib & w1 & buf & pdf & page & _ & _ & _ & _ & Hvp) & _).
  injection Hvp as <-.
  exists (setWorkerSrc local_worker_url Sample.engine),
    (snd (loadPdfJs Sample.healthy initial)), (mkArrayBuffer 181004), (mkPdfDoc 0 1),
    (mkPage 0 1).
  repeat split.
Defined.

(** X5. A file and an object URL are created exactly when the conversion
    resolves to an image: on every other path, for every input, neither
    [new File] nor [URL.createObjectURL] is called, so a conversion that
    fails, throws or hangs leaves no object URL behind. *)
Theorem object_url_only_with_an_image (env : Env) (file : option File) (w : World) :
  In CCreateObjectURL (calls_since w (snd (convertPdfToImage env file w))) <->
  exists r, fst (convertPdfToImage env file w) = Fulfilled r /\ has_image r.
Proof.
  destruct file as [f|].
  - destruct (convertPdfToImage_trace env f w)
      as (remote & vp & made & Hremote & Hc & _ & Hcases).
    rewrite (calls_since_app _ _ _ Hc).
    destruct Hcases as [[[k Hk] Hfail]|[-> Himg]].
    + split.
      * intros Hin.
        assert (Hall : In CCreateObjectURL
                         ((local_imports env ++ remote)
                          ++ render_calls env vp ++ [encode_call])).
        { rewrite <- app_assoc, Hk. apply in_or_app. now left. }
        exfalso. apply in_app_or in Hall as [Hall|Hall].
        -- now destruct (only_imports_in_loader_calls env remote CCreateObjectURL
                           Hremote eq_refl).
        -- unfold render_calls, encode_call in Hall. simpl in Hall.
           repeat (destruct Hall as [Hall|Hall]; try discriminate). contradiction.
      * intros (r & Hr & Hfile & _). destruct (Hfail r Hr) as (msg & ->).
        now contradiction Hfile.
    + split; [intros _; exact Himg|]. intros _.
      apply in_or_app. right. apply in_or_app. right.
      apply in_or_app. right. simpl. auto.
  - assert (Hnull : convertPdfToImage env None w =
                    (Fulfilled (failure (nullReadMessage env)), w)) by reflexivity.
    rewrite Hnull. unfold calls_since. cbn [fst snd]. rewrite drop_all. split.
    + intros [].
    + intros (r & Hr & Hfile & _). injection Hr as <-. now contradiction Hfile.
Qed.

(** ** Script elements and the cache *)

(** Handlers rewrite loads in place: the script elements stay as they are. *)
Ltac keeps_scripts :=
  unfold injected, script_onload, script_onerror, import_then, import_catch,
    expose, settle, set_phase;
  repeat match goal with
         | |- context [match ?x with _ => _ end] => destruct x
         end;
  simpl;
  rewrite ?fmap_src_alter
    by (intros; rewrite ?script_src_settle; reflexivity);
  auto.

Section ScriptFacts.
Variable env : Env.

Lemma injected_drive p w : injected (drive env p w) = injected w.
Proof.
  unfold drive, drive_import, drive_fetch.
  destruct (phase_of p w) as [[| |]|].
  - destruct (scriptFetch env p) as [ex|].
    + destruct (phase_of p (script_onload p (expose ex w))) as [[| |]|];
        try destruct (cdnImport env p); keeps_scripts.
    + destruct (phase_of p (script_onerror p w)) as [[| |]|];
        try destruct (cdnImport env p); keeps_scripts.
  - destruct (phase_of p w) as [[| |]|]; try destruct (cdnImport env p); keeps_scripts.
  - destruct (phase_of p w) as [[| |]|]; try destruct (cdnImport env p); keeps_scripts.
  - destruct (phase_of p w) as [[| |]|]; try destruct (cdnImport env p); keeps_scripts.
Qed.

(** Only a caller that finds neither a cached engine nor a memoised promise
    injects a script element, and it injects one. *)
Lemma loadPdfJsFromCDN_injects w :
  injected (snd (loadPdfJsFromCDN env w)) =
  injected w ++ match pdfjsLib w, loadPromise w with
                | None, None => [cdn_script_url]
                | _, _ => []
                end.
Proof.
  unfold loadPdfJsFromCDN, loadPdfJsFromCDN_enter.
  destruct (pdfjsLib w); [now rewrite app_nil_r|].
  destruct (loadPromise w); simpl; rewrite injected_drive.
  - now rewrite app_nil_r.
  - unfold injected. simpl. now rewrite fmap_app.
Qed.

Lemma loadPdfJs_injects w :
  injected (snd (loadPdfJs env w)) =
  injected w ++ match fst (loadPdfJsLocal env w), pdfjsLib w, loadPromise w with
                | Rejected _, None, None => [cdn_script_url]
                | _, _, _ => []
                end.
Proof.
  unfold loadPdfJs, tryCatch.
  pose proof (loadPdfJsLocal_world env w) as (Hlib & _ & Hmemo & Hloads & _).
  destruct (loadPdfJsLocal env w) as [[lib|e|] w1]; simpl in *;
    try (unfold injected; rewrite Hloads; now rewrite app_nil_r).
  pose proof (loadPdfJsFromCDN_injects w1) as Hcdn.
  rewrite Hlib, Hmemo in Hcdn. unfold injected at 2 in Hcdn. rewrite Hloads in Hcdn.
  destruct (loadPdfJsFromCDN env w1) as [[lib|e'|] w2]; exact Hcdn.
Qed.

(** After the engine is there, the conversion leaves the loader alone. *)
Lemma renderFirstPage_loader f w o w' ol w1 :
  renderFirstPage env f w = (o, w') -> loadPdfJs env w = (ol, w1) -> same_loader w' w1.
Proof.
  intros H Hl. unfold renderFirstPage in H. unfold bind at 1 in H. rewrite Hl in H.
  unfold bind, await, perform, throw, ret in H.
  destruct ol as [lib|e|]; [| injection H as <- <-; now repeat split ..].
  repeat match type of H with
         | context [match ?x with _ => _ end] => destruct x; simpl in H
         end;
    injection H as <- <-; now repeat split.
Qed.

Lemma encode_loader f page canvas w : same_loader (snd (encode env f page canvas w)) w.
Proof.
  unfold encode, bind, await, perform, ret.
  destruct (toBlob env page canvas) as [[blob|]|e|]; try (now repeat split).
  destruct (0 <? blob_size blob)%N; now repeat split.
Qed.

Lemma same_loader_trans w1 w2 w3 :
  same_loader w1 w2 -> same_loader w2 w3 -> same_loader w1 w3.
Proof. unfold same_loader. intuition congruence. Qed.

(** The loader state a conversion leaves is the one [loadPdfJs] left, or the
    one it found when validation rejected the input. *)
Lemma convertPdfToImage_loader file w :
  (same_loader (snd (convertPdfToImage env file w)) w /\
   forall f, validateFile env file w <> (Fulfilled f, w)) \/
  (same_loader (snd (convertPdfToImage env file w)) (snd (loadPdfJs env w)) /\
   exists f, file = Some f /\ validateFile env file w = (Fulfilled f, w)).
Proof.
  rewrite convertPdfToImage_cases, conversionSteps_cases.
  destruct (validateFile env file w) as [[f|e|] w0] eqn:Hv;
    pose proof (validateFile_world env _ _ _ _ Hv) as ->.
  - right. pose proof (validateFile_fulfilled env _ _ _ _ Hv) as (-> & _).
    split; [|eauto].
    destruct (renderFirstPage env f w) as [o w2] eqn:Hr.
    destruct (loadPdfJs env w) as [ol w1] eqn:Hl.
    pose proof (renderFirstPage_loader f w o w2 ol w1 Hr Hl) as Hsame.
    destruct o as [[page canvas]|e|]; simpl; [|exact Hsame ..].
    eapply same_loader_trans; [apply encode_loader | exact Hsame].
  - left. split; [now repeat split | discriminate].
  - left. split; [now repeat split | discriminate].
Qed.

Lemma convertPdfToImage_injects file w :
  injected (snd (convertPdfToImage env file w)) = injected w \/
  (injected (snd (convertPdfToImage env file w)) = injected w ++ [cdn_script_url] /\
   pdfjsLib w = None /\ loadPromise w = None /\
   (exists e, fst (loadPdfJsLocal env w) = Rejected e) /\
   exists f, file = Some f /\ validateFile env file w = (Fulfilled f, w)).
Proof.
  destruct (convertPdfToImage_loader file w) as [[(_ & _ & _ & Hl) _]|[(_ & _ & _ & Hl) Hf]];
    unfold injected at 1 3; rewrite Hl; [now left|].
  fold (injected (snd (loadPdfJs env w))). rewrite loadPdfJs_injects. fold (injected w).
  destruct (fst (loadPdfJsLocal env w)) as [lib|e|]; try (left; apply app_nil_r).
  destruct (pdfjsLib w); [left; apply app_nil_r|].
  destruct (loadPromise w); [left; apply app_nil_r|].
  right. eauto 10.
Qed.

End ScriptFacts.

(** X7. A conversion injects at most one script element, whatever the input
    and the environment.  It injects one only when the file passed
    validation, the local engine failed to load, no engine is cached and no
    load is memoised; in every other case [document.head] is left as it
    was. *)
Theorem conversion_injects_at_most_one_script
    (env : Env) (file : option File) (w : World) :
  injected (snd (convertPdfToImage env file w)) = injected w \/
  (injected (snd (convertPdfToImage env file w)) = injected w ++ [cdn_script_url] /\
   pdfjsLib w = None /\ loadPromise w = None /\
   (exists e, fst (loadPdfJsLocal env w) = Rejected e) /\
   exists f, file = Some f /\ type f = pdf_mime /\ (0 < size f <= max_size)%N).
Proof.
  destruct (convertPdfToImage_injects env file w) as [H|(H & Hlib & Hmemo & Hloc & f & Hf & Hv)];
    [now left|right].
  repeat (split; [assumption|]). exists f. split; [assumption|].
  apply validateFile_fulfilled in Hv as (_ & Ht & Hz & Hmax). split; [assumption|lia].
Qed.

Section CacheFacts.
Variable env : Env.

Lemma fire_with_cache ev w w' :
  pdfjsLib w <> None -> fire env ev w = Some w' ->
  pdfjsLib w' <> None /\ injected w' = injected w.
Proof.
  intros Hlib. destruct ev as [|p ex|p|p lib|p e]; simpl.
  - unfold loadPdfJsFromCDN_enter. destruct (pdfjsLib w) eqn:E; [|contradiction].
    intros [= <-]. simpl. rewrite E. auto.
  - destruct (phase_of p w) as [[| |]|]; try discriminate. intros [= <-].
    split; [|keeps_scripts].
    unfold script_onload, expose. destruct ex as [lib|]; simpl.
    + destruct (GlobalWorkerOptions lib); simpl; discriminate.
    + destruct (pdfjsLib w) as [lib|] eqn:E; [|contradiction].
      destruct (GlobalWorkerOptions lib); simpl; rewrite ?E; discriminate.
  - destruct (phase_of p w) as [[| |]|]; try discriminate. intros [= <-].
    split; [exact Hlib | keeps_scripts].
  - destruct (phase_of p w) as [[| |]|]; try discriminate. intros [= <-].
    split; [|keeps_scripts].
    unfold import_then. destruct (GlobalWorkerOptions lib); simpl; [discriminate|assumption].
  - destruct (phase_of p w) as [[| |]|]; try discriminate. intros [= <-].
    split; [exact Hlib | keeps_scripts].
Qed.

Lemma run_with_cache evs w w' :
  pdfjsLib w <> None -> run env evs w = Some w' ->
  pdfjsLib w' <> None /\ injected w' = injected w /\
  Forall (fun r => exists lib, r = Cached lib) (handed env evs w).
Proof.
  revert w. induction evs as [|ev evs IH]; intros w Hlib; simpl.
  - intros [= <-]. auto.
  - destruct (fire env ev w) as [w1|] eqn:Hf; [|discriminate]. intros Hrun.
    destruct (fire_with_cache ev w w1 Hlib Hf) as [Hlib1 Hi1].
    destruct (IH w1 Hlib1 Hrun) as (Hlib' & Hi' & Hh).
    split; [assumption|]. split; [congruence|].
    destruct ev; try exact Hh. constructor; [|exact Hh].
    unfold loadPdfJsFromCDN_enter. destruct (pdfjsLib w); [eauto|contradiction].
Qed.

End CacheFacts.

(** X8. The engine cache is never cleared.  Once [window.pdfjsLib] is set,
    no sequence of calls and browser events unsets it or injects a script
    element, and every caller of [loadPdfJsFromCDN] is handed the cached
    engine at once; a conversion started in such a state adds nothing to
    [document.head]. *)
Theorem cached_engine_is_never_reloaded (env : Env) (w : World) :
  pdfjsLib w <> None ->
  (forall evs w',
     run env evs w = Some w' ->
     pdfjsLib w' <> None /\ injected w' = injected w /\
     Forall (fun r => exists lib, r = Cached lib) (handed env evs w)) /\
  (exists lib, pdfjsLib w = Some lib /\ loadPdfJsFromCDN env w = (Fulfilled lib, w)) /\
  (forall file, injected (snd (convertPdfToImage env file w)) = injected w).
Proof.
  intros Hlib. split; [|split].
  - intros evs w'. now apply run_with_cache.
  - destruct (pdfjsLib w) as [lib|] eqn:E; [|contradiction].
    exists lib. split; [reflexivity|].
    unfold loadPdfJsFromCDN, loadPdfJsFromCDN_enter. now rewrite E.
  - intros file.
    destruct (convertPdfToImage_injects env file w) as [H|(_ & Hnone & _)];
      [exact H | contradiction].
Qed.

Lemma cached_engine_is_never_reloaded_witness :
  injected (snd (convertPdfToImage Sample.offline (Some Sample.resume)
                   (set_pdfjsLib (Some Sample.cdn_engine) initial))) = [] /\
  handed Sample.offline [EvCall; EvCall]
    (set_pdfjsLib (Some Sample.cdn_engine) initial) =
    [Cached Sample.cdn_engine; Cached Sample.cdn_engine].
Proof.
  destruct (cached_engine_is_never_reloaded Sample.offline
              (set_pdfjsLib (Some Sample.cdn_engine) initial))
    as (_ & _ & Hconv); [discriminate|].
  split; [apply Hconv | reflexivity].
Defined.

(** ** Settled loads *)

Section SettledFacts.
Variable env : Env.

Local Open Scope nat_scope.

Lemma unfinished_is_memoised w q l :
  memo_sound w -> loads w !! q = Some l -> load_phase l <> Finished ->
  promise l = Pending /\ loadPromise w = Some q.
Proof. intros [I1 I2] Hl Hph. split; eauto. Qed.

Lemma fire_import_rejected p e w w1 :
  fire env (EvImportRejected p e) w = Some w1 ->
  w1 = import_catch p e w /\ exists l, loads w !! p = Some l /\ load_phase l = Importing.
Proof.
  simpl. destruct (phase_of p w) as [[| |]|] eqn:Hph; try discriminate.
  intros [= <-]. split; [reflexivity|]. now apply phase_of_Some.
Qed.

Lemma all_finished_after_import_catch p e w l :
  memo_sound w -> loads w !! p = Some l -> load_phase l = Importing ->
  all_finished (import_catch p e w).
Proof.
  intros Hs Hl Hph q l'. unfold import_catch. rewrite loads_finish_settle.
  destruct (decide (p = q)) as [<-|Hne].
  - rewrite list_lookup_alter_eq, Hl. intros [= <-]. now rewrite load_phase_settle.
  - rewrite list_lookup_alter_ne by assumption. intros Hl'.
    destruct (load_phase l') eqn:Hph'; [| |reflexivity]; exfalso.
    + destruct (unfinished_is_memoised w q l' Hs Hl') as [_ Hq]; [now rewrite Hph'|].
      destruct (unfinished_is_memoised w p l Hs Hl) as [_ Hp]; [now rewrite Hph|].
      congruence.
    + destruct (unfinished_is_memoised w q l' Hs Hl') as [_ Hq]; [now rewrite Hph'|].
      destruct (unfinished_is_memoised w p l Hs Hl) as [_ Hp]; [now rewrite Hph|].
      congruence.
Qed.

Lemma phase_of_finished w q :
  all_finished w -> phase_of q w = Some Finished \/ phase_of q w = None.
Proof.
  intros Hall. unfold phase_of. destruct (loads w !! q) as [l|] eqn:Hl; [|now right].
  left. simpl. now rewrite (Hall q l Hl).
Qed.

(** With every handler done, no engine cached and the memo set, only calls
    can happen, and they change nothing. *)
Lemma frozen_fire ev w w' p :
  all_finished w -> pdfjsLib w = None -> loadPromise w = Some p ->
  fire env ev w = Some w' ->
  ev = EvCall /\ w' = w /\ fst (loadPdfJsFromCDN_enter w) = InFlight p.
Proof.
  intros Hall Hlib Hmemo.
  destruct ev as [|q ex|q|q lib|q e]; simpl;
    try (destruct (phase_of_finished w q Hall) as [-> | ->]; discriminate).
  unfold loadPdfJsFromCDN_enter. rewrite Hlib, Hmemo. simpl. now intros [= <-].
Qed.

Lemma frozen_run evs w w' p :
  all_finished w -> pdfjsLib w = None -> loadPromise w = Some p ->
  run env evs w = Some w' ->
  w' = w /\ handed env evs w = repeat (InFlight p) (length evs).
Proof.
  intros Hall Hlib Hmemo. induction evs as [|ev evs IH]; simpl.
  - now intros [= <-].
  - destruct (fire env ev w) as [w1|] eqn:Hf; [|discriminate].
    destruct (frozen_fire ev w w1 p Hall Hlib Hmemo Hf) as (-> & -> & Hh).
    intros Hrun. destruct (IH Hrun) as [-> Hrest]. now rewrite Hh, Hrest.
Qed.

End SettledFacts.

(** X9. A failed import of the CDN module is permanent, unlike a script
    error.  When the [load] handler found no global and its import is
    rejected with [e], the memo keeps the rejected promise (line 51 does not
    clear it): with the engine uncached, no further browser event can reach
    the loader, every later caller is handed that same promise, no script is
    injected again, and each later [await loadPdfJsFromCDN()] rejects with
    [e]. *)
Theorem failed_import_is_permanent
    (env : Env) (w w1 : World) (p : nat) (e : exn) :
  reachable env w ->
  fire env (EvImportRejected p e) w = Some w1 ->
  pdfjsLib w1 = None ->
  loadPromise w1 = Some p /\
  promise_of p w1 = Rejected e /\
  (forall evs w2,
     run env evs w1 = Some w2 ->
     w2 = w1 /\ handed env evs w1 = repeat (InFlight p) (length evs)) /\
  loadPdfJsFromCDN env w1 = (Rejected e, w1).
Proof.
  intros Hreach Hfire Hlib.
  pose proof (memo_sound_reachable env w Hreach) as Hs.
  apply fire_import_rejected in Hfire as (-> & l & Hl & Hph).
  destruct (unfinished_is_memoised w p l Hs Hl) as [Hpend Hmemo]; [now rewrite Hph|].
  assert (Hmemo1 : loadPromise (import_catch p e w) = Some p) by exact Hmemo.
  assert (Hl1 : loads (import_catch p e w) !! p =
                Some (settle_load (Rejected e) (phase_load Finished l))).
  { unfold import_catch. rewrite loads_finish_settle, list_lookup_alter_eq, Hl.
    reflexivity. }
  assert (Hprom : promise_of p (import_catch p e w) = Rejected e).
  { unfold promise_of. rewrite Hl1. unfold settle_load. simpl. now rewrite Hpend. }
  pose proof (all_finished_after_import_catch p e w l Hs Hl Hph) as Hall.
  split; [exact Hmemo1|]. split; [exact Hprom|]. split.
  - intros evs w2. now apply frozen_run.
  - unfold loadPdfJsFromCDN, loadPdfJsFromCDN_enter. rewrite Hlib, Hmemo1.
    cbv zeta. unfold drive, drive_fetch.
    destruct (phase_of_finished (import_catch p e w) p Hall) as [Hf|Hf]; rewrite Hf;
      unfold drive_import; rewrite Hf, Hprom; reflexivity.
Qed.

Lemma failed_import_is_permanent_witness :
  loadPdfJsFromCDN Sample.offline
    (import_catch 0 (ErrorObj "Failed to fetch dynamically imported module")
       (script_onload 0 (snd (loadPdfJsFromCDN_enter initial)))) =
  (Rejected (ErrorObj "Failed to fetch dynamically imported module"),
   import_catch 0 (ErrorObj "Failed to fetch dynamically imported module")
     (script_onload 0 (snd (loadPdfJsFromCDN_enter initial)))).
Proof.
  refine (proj2 (proj2 (proj2
    (failed_import_is_permanent Sample.offline
       (script_onload 0 (snd (loadPdfJsFromCDN_enter initial))) _ 0
       (ErrorObj "Failed to fetch dynamically imported module") _ eq_refl eq_refl)))).
  exists [EvCall; EvScriptLoad 0 None]. reflexivity.
Defined.

Ltac loads_step :=
  unfold settle, set_phase, expose;
  repeat match goal with
         | |- context [match ?x with _ => _ end] => destruct x
         end;
  simpl; rewrite ?list_alter_alter_eq; reflexivity.

Section FulfilledFacts.
Variable env : Env.

Local Open Scope nat_scope.

(** While a script has handlers to run, no load is fulfilled. *)
Lemma none_fulfilled_while_loading w q l :
  memo_sound w -> fulfilled_final w ->
  loads w !! q = Some l -> load_phase l <> Finished ->
  forall r l' lib, loads w !! r = Some l' -> promise l' <> Fulfilled lib.
Proof.
  intros Hs Hff Hl Hph r l' lib Hl' Hp.
  destruct (unfinished_is_memoised w q l Hs Hl Hph) as [Hpend Hmemo].
  destruct (Hff r l' lib Hl' Hp) as (_ & _ & Hmemo' & _).
  assert (r = q) as -> by congruence.
  rewrite Hl in Hl'. injection Hl' as <-. congruence.
Qed.

(** A handler of the q-th script keeps fulfilled loads final when what it
    fulfils is configured, cached and memoised. *)
Lemma fulfilled_final_handler g q l w w' :
  memo_sound w -> fulfilled_final w ->
  loads w !! q = Some l -> load_phase l <> Finished ->
  loads w' = alter g q (loads w) ->
  (forall lib, promise (g l) = Fulfilled lib ->
     GlobalWorkerOptions lib = Some cdn_worker_url /\
     pdfjsLib w' = Some lib /\ loadPromise w' = Some q /\ isLoading w' = false) ->
  fulfilled_final w'.
Proof.
  intros Hs Hff Hl Hph Hloads Hnew r l' lib. rewrite Hloads.
  destruct (decide (q = r)) as [<-|Hne].
  - rewrite list_lookup_alter_eq, Hl. intros [= <-]. apply Hnew.
  - rewrite list_lookup_alter_ne by assumption. intros Hl' Hp.
    exfalso. exact (none_fulfilled_while_loading w q l Hs Hff Hl Hph r l' lib Hl' Hp).
Qed.

Lemma promise_finish_settle o l :
  promise l = Pending -> promise (settle_load o (phase_load Finished l)) = o.
Proof. intros Hp. unfold settle_load. simpl. now rewrite Hp. Qed.

Lemma fulfilled_final_fire ev w w' :
  memo_sound w -> fulfilled_final w -> fire env ev w = Some w' -> fulfilled_final w'.
Proof.
  intros Hs Hff. destruct ev as [|q ex|q|q lib|q e]; simpl.
  - unfold loadPdfJsFromCDN_enter. destruct (pdfjsLib w) eqn:Hlib; [now intros [= <-]|].
    destruct (loadPromise w) eqn:Hmemo; [now intros [= <-]|].
    intros [= <-] r l' lib'. simpl. intros Hl' Hp.
    destruct (decide (r < length (loads w))) as [Hlt|Hge].
    + rewrite lookup_app_l in Hl' by assumption.
      destruct (Hff r l' lib' Hl' Hp) as (_ & Hc & _). congruence.
    + rewrite lookup_app_r in Hl' by lia.
      destruct (r - length (loads w)); simpl in Hl'; [|discriminate].
      injection Hl' as <-. discriminate.
  - destruct (phase_of q w) as [[| |]|] eqn:Hph; try discriminate. intros [= <-].
    apply phase_of_Some in Hph as (l & Hl & Hph).
    assert (Hunf : load_phase l <> Finished) by (rewrite Hph; discriminate).
    destruct (unfinished_is_memoised w q l Hs Hl Hunf) as [Hpend Hmemo].
    unfold script_onload.
    destruct (pdfjsLib (expose ex w)) as [lib0|];
      [destruct (GlobalWorkerOptions lib0) as [src|]|].
    + eapply (fulfilled_final_handler
                (fun l => settle_load (Fulfilled (setWorkerSrc cdn_worker_url lib0))
                            (phase_load Finished l))); eauto.
      * loads_step.
      * intros lib. rewrite promise_finish_settle by assumption. intros [= <-].
        repeat split. now destruct ex.
    + eapply (fulfilled_final_handler (phase_load Finished)); eauto.
      * now destruct ex.
      * simpl. congruence.
    + eapply (fulfilled_final_handler (phase_load Importing)); eauto.
      * now destruct ex.
      * simpl. congruence.
  - destruct (phase_of q w) as [[| |]|] eqn:Hph; try discriminate. intros [= <-].
    apply phase_of_Some in Hph as (l & Hl & Hph).
    assert (Hunf : load_phase l <> Finished) by (rewrite Hph; discriminate).
    destruct (unfinished_is_memoised w q l Hs Hl Hunf) as [Hpend Hmemo].
    eapply fulfilled_final_handler; eauto using loads_script_onerror.
    intros lib. cbv beta. rewrite promise_finish_settle by assumption. discriminate.
  - destruct (phase_of q w) as [[| |]|] eqn:Hph; try discriminate. intros [= <-].
    apply phase_of_Some in Hph as (l & Hl & Hph).
    assert (Hunf : load_phase l <> Finished) by (rewrite Hph; discriminate).
    destruct (unfinished_is_memoised w q l Hs Hl Hunf) as [Hpend Hmemo].
    unfold import_then. destruct (GlobalWorkerOptions lib) as [src|].
    + eapply (fulfilled_final_handler
                (fun l => settle_load (Fulfilled (setWorkerSrc cdn_worker_url lib))
                            (phase_load Finished l))); eauto.
      * loads_step.
      * intros lib'. rewrite promise_finish_settle by assumption. intros [= <-].
        now repeat split.
    + eapply (fulfilled_final_handler
                (fun l => settle_load (Rejected (ErrorObj (undefinedWriteMessage env)))
                            (phase_load Finished l))); eauto.
      * loads_step.
      * intros lib'. rewrite promise_finish_settle by assumption. discriminate.
  - destruct (phase_of q w) as [[| |]|] eqn:Hph; try discriminate. intros [= <-].
    apply phase_of_Some in Hph as (l & Hl & Hph).
    assert (Hunf : load_phase l <> Finished) by (rewrite Hph; discriminate).
    destruct (unfinished_is_memoised w q l Hs Hl Hunf) as [Hpend Hmemo].
    unfold import_catch.
    eapply (fulfilled_final_handler
              (fun l => settle_load (Rejected e) (phase_load Finished l))); eauto.
    + loads_step.
    + intros lib'. rewrite promise_finish_settle by assumption. discriminate.
Qed.

Lemma fulfilled_final_run evs w w' :
  memo_sound w -> fulfilled_final w -> run env evs w = Some w' -> fulfilled_final w'.
Proof.
  revert w. induction evs as [|ev evs IH]; intros w Hs Hff; simpl.
  - now intros [= <-].
  - destruct (fire env ev w) as [w1|] eqn:Hf; [|discriminate].
    apply IH; [eapply memo_sound_fire | eapply fulfilled_final_fire]; eauto.
Qed.

End FulfilledFacts.

(** X10. A fulfilled remote load is final.  In every loader state that can
    arise, an engine delivered by a fulfilled load promise has its worker
    source set to the CDN worker, is the engine cached in [window.pdfjsLib],
    is still the memoised load, and [isLoading] is off. *)
Theorem fulfilled_load_is_configured_and_cached
    (env : Env) (w : World) (p : nat) (l : Load) (lib : Lib) :
  reachable env w ->
  loads w !! p = Some l -> promise l = Fulfilled lib ->
  GlobalWorkerOptions lib = Some cdn_worker_url /\
  pdfjsLib w = Some lib /\ loadPromise w = Some p /\ isLoading w = false.
Proof.
  intros [evs Hrun]. revert p l lib.
  change (fulfilled_final w).
  eapply (fulfilled_final_run env evs initial); eauto using memo_sound_initial.
  intros p l lib Hl. inversion Hl.
Qed.

Lemma fulfilled_load_is_configured_and_cached_witness :
  let w := import_then Sample.healthy 0 Sample.cdn_engine
             (script_onload 0 (snd (loadPdfJsFromCDN_enter initial))) in
  GlobalWorkerOptions (setWorkerSrc cdn_worker_url Sample.cdn_engine) = Some cdn_worker_url /\
  pdfjsLib w = Some (setWorkerSrc cdn_worker_url Sample.cdn_engine) /\
  loadPromise w = Some 0%nat /\ isLoading w = false.
Proof.
  refine (fulfilled_load_is_configured_and_cached Sample.healthy
            (import_then Sample.healthy 0 Sample.cdn_engine
               (script_onload 0 (snd (loadPdfJsFromCDN_enter initial))))
            0%nat
            (mkLoad cdn_script_url "module" Finished
               (Fulfilled (setWorkerSrc cdn_worker_url Sample.cdn_engine)))
            (setWorkerSrc cdn_worker_url Sample.cdn_engine) _ eq_refl eq_refl).
  exists [EvCall; EvScriptLoad 0 None; EvImportResolved 0 Sample.cdn_engine]. reflexivity.
Defined.

(** ** The remote fallback, end to end *)

Lemma alter_last {A} (g : A -> A) (l : list A) (x : A) :
  alter g (length l) (l ++ [x]) = l ++ [g x].
Proof. rewrite alter_app_r_alt by lia. now rewrite Nat.sub_diag. Qed.

Lemma lookup_last {A} (l : list A) (x : A) : (l ++ [x]) !! length l = Some x.
Proof. now apply list_lookup_middle. Qed.

(** Running the handlers on the load that was just appended. *)
Ltac step_loader :=
  repeat (progress
            (cbn [loads pdfjsLib isLoading loadPromise calls fmap option_fmap option_map
                  load_phase phase_load settle_load promise script_src script_type
                  fst snd GlobalWorkerOptions setWorkerSrc];
             rewrite ?lookup_last, ?alter_last)).

Section FallbackFacts.
Variable env : Env.

Local Open Scope nat_scope.

(** The world after the caller that starts a load. *)
Lemma enter_fresh w :
  pdfjsLib w = None -> loadPromise w = None ->
  loadPdfJsFromCDN_enter w =
    (InFlight (length (loads w)),
     mkWorld None true (Some (length (loads w)))
       (loads w ++ [mkLoad cdn_script_url "module" Fetching Pending]) (calls w)).
Proof.
  intros Hlib Hmemo. unfold loadPdfJsFromCDN_enter. rewrite Hlib, Hmemo.
  unfold set_loadPromise, set_loads, set_isLoading. simpl. now rewrite Hlib.
Qed.

Lemma cdn_script_fails w :
  pdfjsLib w = None -> loadPromise w = None ->
  scriptFetch env (length (loads w)) = ScriptFails ->
  loadPdfJsFromCDN env w =
    (Rejected (ErrorObj "Failed to load PDF.js from CDN"),
     mkWorld None false None
       (loads w ++ [mkLoad cdn_script_url "module" Finished
                      (Rejected (ErrorObj "Failed to load PDF.js from CDN"))])
       (calls w)).
Proof.
  intros Hlib Hmemo Hfetch. unfold loadPdfJsFromCDN.
  rewrite (enter_fresh w Hlib Hmemo). cbv zeta.
  unfold drive, drive_fetch, phase_of. step_loader. rewrite Hfetch.
  unfold script_onerror, settle, set_phase, set_loadPromise, set_isLoading, set_loads.
  step_loader.
  unfold drive_import, phase_of, promise_of. step_loader. reflexivity.
Qed.

Lemma cdn_script_exposes w lib0 src :
  pdfjsLib w = None -> loadPromise w = None ->
  scriptFetch env (length (loads w)) = ScriptLoads (Some lib0) ->
  GlobalWorkerOptions lib0 = Some src ->
  loadPdfJsFromCDN env w =
    (Fulfilled (setWorkerSrc cdn_worker_url lib0),
     mkWorld (Some (setWorkerSrc cdn_worker_url lib0)) false (Some (length (loads w)))
       (loads w ++ [mkLoad cdn_script_url "module" Finished
                      (Fulfilled (setWorkerSrc cdn_worker_url lib0))])
       (calls w)).
Proof.
  intros Hlib Hmemo Hfetch Hgwo. unfold loadPdfJsFromCDN.
  rewrite (enter_fresh w Hlib Hmemo). cbv zeta.
  unfold drive, drive_fetch, phase_of. step_loader. rewrite Hfetch.
  unfold script_onload, expose, settle, set_phase, set_pdfjsLib, set_isLoading, set_loads.
  step_loader. rewrite Hgwo. step_loader.
  unfold drive_import, phase_of, promise_of. step_loader. reflexivity.
Qed.

Lemma cdn_script_then_import w lib0 src :
  pdfjsLib w = None -> loadPromise w = None ->
  scriptFetch env (length (loads w)) = ScriptLoads None ->
  cdnImport env (length (loads w)) = Fulfilled lib0 ->
  GlobalWorkerOptions lib0 = Some src ->
  loadPdfJsFromCDN env w =
    (Fulfilled (setWorkerSrc cdn_worker_url lib0),
     mkWorld (Some (setWorkerSrc cdn_worker_url lib0)) false (Some (length (loads w)))
       (loads w ++ [mkLoad cdn_script_url "module" Finished
                      (Fulfilled (setWorkerSrc cdn_worker_url lib0))])
       (calls w ++ [CImport cdn_script_url])).
Proof.
  intros Hlib Hmemo Hfetch Himport Hgwo. unfold loadPdfJsFromCDN.
  rewrite (enter_fresh w Hlib Hmemo). cbv zeta.
  unfold drive, drive_fetch, phase_of. step_loader. rewrite Hfetch.
  unfold script_onload, expose, set_calls, set_phase, set_loads. step_loader.
  unfold drive_import, phase_of. step_loader. rewrite Himport.
  unfold import_then, settle, set_phase, set_pdfjsLib, set_isLoading, set_loads.
  rewrite Hgwo. step_loader.
  unfold promise_of. step_loader. reflexivity.
Qed.

(** The local loader when both imports are rejected: the first error is
    dropped, the second is the one thrown. *)
Lemma local_imports_fail w e1 e2 :
  importStandard env = Rejected e1 -> importBuildPath env = Rejected e2 ->
  loadPdfJsLocal env w =
    (Rejected e2,
     set_calls (calls w ++ [CImport "pdfjs-dist"; CImport "pdfjs-dist/build/pdf.mjs"]) w).
Proof.
  intros H1 H2. unfold loadPdfJsLocal, tryCatch, bind, await, throw. rewrite H1, H2.
  unfold set_calls. simpl. now rewrite <- app_assoc.
Qed.

End FallbackFacts.

(** X11. With no engine cached and no load memoised, when both local imports
    are rejected and the CDN script fires [error], the conversion of a valid
    file resolves to an error, having made the two imports and nothing else;
    one failed script element is left in [document.head], and memo and
    [isLoading] are cleared, so the next conversion starts a new load.  The
    first import's error is dropped.  When the second ([build/pdf.mjs])
    import's rejection has a [message] to read, [<m>], the error is
    [PDF.js loading failed: Local: <m>, CDN: Failed to load PDF.js from CDN];
    when it is [null] or [undefined], the error is the [TypeError] message of
    reading [message] from it. *)
Theorem offline_conversion_names_both_causes
    (env : Env) (f : File) (w : World) (e1 e2 : exn) :
  type f = pdf_mime -> size f <> 0 -> size f <= max_size ->
  importStandard env = Rejected e1 -> importBuildPath env = Rejected e2 ->
  pdfjsLib w = None -> loadPromise w = None ->
  scriptFetch env (length (loads w)) = ScriptFails ->
  convertPdfToImage env (Some f) w =
    (Fulfilled
       (mkResult "" None
          (Some (match messageOf e2 with
                 | inl m => "PDF.js loading failed: Local: " +:+ m
                            +:+ ", CDN: Failed to load PDF.js from CDN"
                 | inr v => messageReadError env v
                 end))),
     mkWorld None false None
       (loads w ++ [mkLoad cdn_script_url "module" Finished
                      (Rejected (ErrorObj "Failed to load PDF.js from CDN"))])
       (calls w ++ [CImport "pdfjs-dist"; CImport "pdfjs-dist/build/pdf.mjs"])).
Proof.
  intros Ht Hz Hmax H1 H2 Hlib Hmemo Hfetch.
  rewrite convertPdfToImage_cases, conversionSteps_cases.
  rewrite (validateFile_accepts env f w Ht Hz Hmax).
  assert (Hload : loadPdfJs env w =
            (Rejected (combinedFailure env e2 (ErrorObj "Failed to load PDF.js from CDN")),
             mkWorld None false None
               (loads w ++ [mkLoad cdn_script_url "module" Finished
                              (Rejected (ErrorObj "Failed to load PDF.js from CDN"))])
               (calls w ++ [CImport "pdfjs-dist"; CImport "pdfjs-dist/build/pdf.mjs"]))).
  { unfold loadPdfJs, tryCatch. rewrite (local_imports_fail env w e1 e2 H1 H2).
    rewrite cdn_script_fails by assumption. reflexivity. }
  unfold renderFirstPage. rewrite (bind_rejected _ _ _ _ _ Hload).
  unfold combinedFailure. now destruct (messageOf e2).
Qed.

Lemma offline_conversion_names_both_causes_witness :
  fst (convertPdfToImage Sample.offline (Some Sample.resume) initial) =
    Fulfilled
      (mkResult "" None
         (Some "PDF.js loading failed: Local: Cannot find module 'pdfjs-dist/build/pdf.mjs', CDN: Failed to load PDF.js from CDN")) /\
  loadPromise (snd (convertPdfToImage Sample.offline (Some Sample.resume) initial)) = None.
Proof.
  rewrite (offline_conversion_names_both_causes Sample.offline Sample.resume initial
             (ErrorObj "Cannot find module 'pdfjs-dist'")
             (ErrorObj "Cannot find module 'pdfjs-dist/build/pdf.mjs'"));
    try reflexivity; try discriminate.
  split; reflexivity.
Defined.

(** X12. With no engine cached and no load memoised, when both local imports
    are rejected and the CDN script loads, [loadPdfJs] answers with the CDN
    engine, whether the script stored it in [window.pdfjsLib] or the [load]
    handler had to import it: its worker source is the CDN worker, it is
    cached in [window.pdfjsLib], [isLoading] is off and one script element
    was injected.  The calls it made are the two local imports, followed by
    the import of the CDN module exactly when the script had stored no
    engine.  A second [loadPdfJs] then answers with the same engine from the
    cache: it repeats the two local imports and injects nothing. *)
Theorem cdn_fallback_configures_and_caches
    (env : Env) (w : World) (e1 e2 : exn) (lib0 : Lib) (src : string) :
  importStandard env = Rejected e1 -> importBuildPath env = Rejected e2 ->
  pdfjsLib w = None -> loadPromise w = None ->
  GlobalWorkerOptions lib0 = Some src ->
  (scriptFetch env (length (loads w)) = ScriptLoads (Some lib0) \/
   (scriptFetch env (length (loads w)) = ScriptLoads None /\
    cdnImport env (length (loads w)) = Fulfilled lib0)) ->
  let lib := setWorkerSrc cdn_worker_url lib0 in
  let imports := [CImport "pdfjs-dist"; CImport "pdfjs-dist/build/pdf.mjs"] in
  let remote := match scriptFetch env (length (loads w)) with
                | ScriptLoads None => [CImport cdn_script_url]
                | _ => []
                end in
  let w' := mkWorld (Some lib) false (Some (length (loads w)))
              (loads w ++ [mkLoad cdn_script_url "module" Finished (Fulfilled lib)])
              (calls w ++ imports ++ remote) in
  loadPdfJs env w = (Fulfilled lib, w') /\
  loadPdfJs env w' = (Fulfilled lib, set_calls (calls w' ++ imports) w').
Proof.
  intros H1 H2 Hlib Hmemo Hgwo Hscript lib imports remote w'. split.
  - unfold loadPdfJs, tryCatch. rewrite (local_imports_fail env w e1 e2 H1 H2).
    subst w' remote. destruct Hscript as [Hs|[Hs Hi]]; rewrite Hs.
    + rewrite (cdn_script_exposes env _ lib0 src) by assumption.
      reflexivity.
    + rewrite (cdn_script_then_import env _ lib0 src) by assumption.
      unfold set_calls. simpl. now rewrite <- app_assoc.
  - unfold loadPdfJs, tryCatch. rewrite (local_imports_fail env w' e1 e2 H1 H2).
    reflexivity.
Qed.

Lemma cdn_fallback_configures_and_caches_witness :
  fst (loadPdfJs
         (Sample.with_imports (Rejected (ErrorObj "Cannot find module 'pdfjs-dist'"))
            (Rejected (ErrorObj "Cannot find module 'pdfjs-dist/build/pdf.mjs'"))
            (ScriptLoads None) (Fulfilled Sample.cdn_engine) Sample.healthy)
         initial) =
    Fulfilled (setWorkerSrc cdn_worker_url Sample.cdn_engine) /\
  calls (snd (loadPdfJs
         (Sample.with_imports (Rejected (ErrorObj "Cannot find module 'pdfjs-dist'"))
            (Rejected (ErrorObj "Cannot find module 'pdfjs-dist/build/pdf.mjs'"))
            (ScriptLoads None) (Fulfilled Sample.cdn_engine) Sample.healthy)
         initial)) =
    [CImport "pdfjs-dist"; CImport "pdfjs-dist/build/pdf.mjs"; CImport cdn_script_url].
Proof.
  destruct (cdn_fallback_configures_and_caches
              (Sample.with_imports (Rejected (ErrorObj "Cannot find module 'pdfjs-dist'"))
                 (Rejected (ErrorObj "Cannot find module 'pdfjs-dist/build/pdf.mjs'"))
                 (ScriptLoads None) (Fulfilled Sample.cdn_engine) Sample.healthy)
              initial
              (ErrorObj "Cannot find module 'pdfjs-dist'")
              (ErrorObj "Cannot find module 'pdfjs-dist/build/pdf.mjs'")
              Sample.cdn_engine ""
              eq_refl eq_refl eq_refl eq_refl eq_refl
              (or_intror (conj eq_refl eq_refl)))
    as [Hfirst _].
  rewrite Hfirst. split; reflexivity.
Defined.

(** ** The local loader *)

(** X13. [loadPdfJsLocal] never touches the loader state.  It imports the
    build path only after the package import was rejected.  An engine it
    answers with either has no [GlobalWorkerOptions] and is returned as
    imported, or has its worker source set to [/pdf.worker.min.mjs],
    whatever it was before. *)
Theorem local_loader_configures_worker (env : Env) (w : World) :
  same_loader (snd (loadPdfJsLocal env w)) w /\
  (In (CImport "pdfjs-dist/build/pdf.mjs") (calls_since w (snd (loadPdfJsLocal env w))) <->
   exists e, importStandard env = Rejected e) /\
  (forall lib,
     fst (loadPdfJsLocal env w) = Fulfilled lib ->
     exists imported,
       (importStandard env = Fulfilled imported \/
        ((exists e, importStandard env = Rejected e) /\
         importBuildPath env = Fulfilled imported)) /\
       lib_source lib = lib_source imported /\
       ((GlobalWorkerOptions imported = None /\ lib = imported) \/
        (GlobalWorkerOptions imported <> None /\
         GlobalWorkerOptions lib = Some local_worker_url))).
Proof.
  pose proof (loadPdfJsLocal_world env w) as (Hlib & Hload & Hmemo & Hloads & Hcalls).
  split; [now repeat split|]. split.
  - rewrite (calls_since_app _ _ _ Hcalls). unfold local_imports.
    destruct (importStandard env) as [lib|e|]; simpl; split;
      try (intros [H|[H|[]]]; discriminate); try (intros [H|[]]; discriminate);
      try (intros [e' He]; discriminate); eauto.
  - intros lib. rewrite loadPdfJsLocal_outcome.
    destruct (importStandard env) as [imp|e|]; [| |discriminate].
    + intros [= <-]. exists imp. split; [now left|].
      destruct (GlobalWorkerOptions imp) eqn:E; simpl; (split; [reflexivity|]);
        [right; split; [discriminate|reflexivity] | left; split; reflexivity].
    + destruct (importBuildPath env) as [imp|e'|]; try discriminate.
      intros [= <-]. exists imp. split; [right; eauto|].
      destruct (GlobalWorkerOptions imp) eqn:E; simpl; (split; [reflexivity|]);
        [right; split; [discriminate|reflexivity] | left; split; reflexivity].
Qed.

(** ** Instances *)

Lemma object_url_only_with_an_image_witness :
  In CCreateObjectURL
    (calls_since initial
       (snd (convertPdfToImage Sample.healthy (Some Sample.resume) initial))).
Proof.
  apply (proj2 (object_url_only_with_an_image Sample.healthy (Some Sample.resume) initial)).
  eexists. split; [reflexivity|]. split; discriminate.
Defined.

Lemma local_loader_configures_worker_witness :
  exists imported,
    (importStandard Sample.healthy = Fulfilled imported \/
     ((exists e, importStandard Sample.healthy = Rejected e) /\
      importBuildPath Sample.healthy = Fulfilled imported)) /\
    lib_source (setWorkerSrc local_worker_url Sample.engine) = lib_source imported /\
    ((GlobalWorkerOptions imported = None /\
      setWorkerSrc local_worker_url Sample.engine = imported) \/
     (GlobalWorkerOptions imported <> None /\
      GlobalWorkerOptions (setWorkerSrc local_worker_url Sample.engine) =
        Some local_worker_url)).
Proof.
  apply (proj2 (proj2 (local_loader_configures_worker Sample.healthy initial))).
  reflexivity.
Defined.
